(** * events-aggregator: bucketing, rollup and the stats pipeline

    A shallow embedding of [app/events_aggregator.py] and [app/pipelines.py].
    Python integers are unbounded, hence [Z]; request bodies and stored
    documents are JSON values; exceptions are an explicit error type and the
    handlers thread the [events] collection through their calls. *)

From Stdlib Require Import ZArith List String Ascii Bool Lia Permutation.
From Stdlib Require Import Sorting.Sorted.
From Stdlib Require Import Floats.SpecFloat.
Import ListNotations.
Open Scope string_scope.
Open Scope Z_scope.
Set Warnings "-register-all".

(** ** JSON values

    What [json.loads] returns and what the store holds. An object is kept as
    its list of items; [dict_get] reads the first item with the key. A float
    is the IEEE value in its sign/mantissa/exponent form. *)

Inductive json : Type :=
| JNull
| JBool (b : bool)
| JInt (z : Z)
| JFloat (f : spec_float)
| JStr (s : string)
| JArr (l : list json)
| JObj (items : list (string * json)).

Fixpoint dict_get (k : string) (items : list (string * json)) : option json :=
  match items with
  | [] => None
  | (k', v) :: rest => if String.eqb k k' then Some v else dict_get k rest
  end.

(** ** Exceptions *)

Inductive exn : Type :=
| KeyError (key : json)
| TypeError
| ValueError
| OverflowError
| ZeroDivisionError
| AttributeError
| OperationFailure
| InvalidOperation
| HTTPError (status : Z).

Inductive py (A : Type) : Type :=
| Return (a : A)
| Raise (e : exn).
Arguments Return {A} a.
Arguments Raise {A} e.

Definition bind {A B : Type} (m : py A) (k : A -> py B) : py B :=
  match m with
  | Return a => k a
  | Raise e => Raise e
  end.

Notation "x <- m ;; k" := (bind m (fun x => k))
  (at level 61, m at next level, right associativity).

(** A generator: what it yields, and the exception that ends it early if one
    does. *)
Definition generator (A : Type) : Type := (list A * option exn)%type.

(** [d[k]] on a value: a [dict] raises [KeyError] on a missing key, any other
    value is not subscriptable by a string key. *)
Definition getitem (d : json) (k : string) : py json :=
  match d with
  | JObj items =>
      match dict_get k items with
      | Some v => Return v
      | None => Raise (KeyError (JStr k))
      end
  | _ => Raise TypeError
  end.

(** [int(x)] on a float: truncation toward zero; [nan] and the infinities
    raise. *)
Definition int_of_float (f : spec_float) : py Z :=
  match f with
  | S754_zero _ => Return 0
  | S754_infinity _ => Raise OverflowError
  | S754_nan => Raise ValueError
  | S754_finite s m e =>
      let a := if 0 <=? e then Z.shiftl (Z.pos m) e
               else Z.shiftr (Z.pos m) (- e) in
      Return (if s then - a else a)
  end.

Section Builtins.

(** The builtin's reading of a text as an integer literal ([None]: the
    builtin raises [ValueError]). *)
Variable int_of_text : string -> option Z.

Definition int_ (v : json) : py Z :=
  match v with
  | JNull => Raise TypeError
  | JBool b => Return (if b then 1 else 0)
  | JInt z => Return z
  | JFloat f => int_of_float f
  | JStr s =>
      match int_of_text s with
      | Some z => Return z
      | None => Raise ValueError
      end
  | JArr _ => Raise TypeError
  | JObj _ => Raise TypeError
  end.

End Builtins.


(** ** [pipelines.py] *)

(** The aggregation pipeline is data: a list of stage documents, written here
    item for item as the source writes its dictionaries. *)
Definition aggregate_events (object_id start end_ : Z) : json :=
  JArr [
    JObj [("$match", JObj [
      ("object_id", JInt object_id);
      ("time", JObj [("$lte", JInt end_); ("$gte", JInt start)])])];
    JObj [("$group", JObj [
      ("_id", JObj [("type", JStr "$type"); ("time", JStr "$time")]);
      ("count", JObj [("$sum", JInt 1)])])];
    JObj [("$project", JObj [
      ("_id", JInt 0);
      ("time", JStr "$_id.time");
      ("type", JStr "$_id.type");
      ("object_id", JInt 1);
      ("count", JInt 1)])];
    JObj [("$group", JObj [
      ("_id", JObj [("type", JStr "$type")]);
      ("events", JObj [("$push", JObj [
        ("events", JStr "$count"); ("time", JStr "$time")])])])];
    JObj [("$project", JObj [
      ("_id", JInt 0);
      ("type", JStr "$_id.type");
      ("events", JInt 1)])]
  ].

(** ** Grouping

    A list split into groups of equal key, each group keeping its members in
    the order of the list. *)

Section GroupBy.

Context {A K : Type} (eqb : K -> K -> bool) (key : A -> K).

Fixpoint group_insert (a : A) (gs : list (K * list A)) : list (K * list A) :=
  match gs with
  | [] => [(key a, [a])]
  | (k, ms) :: rest =>
      if eqb (key a) k then (k, a :: ms) :: rest
      else (k, ms) :: group_insert a rest
  end.

Fixpoint group_by (l : list A) : list (K * list A) :=
  match l with
  | [] => []
  | a :: rest => group_insert a (group_by rest)
  end.

End GroupBy.

Fixpoint map_option {A B : Type} (f : A -> option B) (l : list A) : option (list B) :=
  match l with
  | [] => Some []
  | a :: rest =>
      match f a, map_option f rest with
      | Some b, Some out => Some (b :: out)
      | _, _ => None
      end
  end.

(** ** The store

    The [events] collection and the three stage kinds the pipeline uses, read
    from the stage documents. Values are compared structurally, which is the
    store's comparison on strings, integers and documents of them (a float
    equal to an integer is not matched with it here); groups come out in
    order of first appearance (the store promises no order). The store is
    taken to be up and the values to be ones the driver can encode: it
    refuses an integer beyond 8 bytes, and [int64] below names the integers
    it takes. *)

Module Mongo.

Definition collection : Type := list json.

Fixpoint json_eqb (a b : json) {struct a} : bool :=
  match a, b with
  | JNull, JNull => true
  | JBool x, JBool y => Bool.eqb x y
  | JInt x, JInt y => x =? y
  | JFloat x, JFloat y =>
      match x, y with
      | S754_zero s, S754_zero s' => Bool.eqb s s'
      | S754_infinity s, S754_infinity s' => Bool.eqb s s'
      | S754_nan, S754_nan => true
      | S754_finite s m e, S754_finite s' m' e' =>
          Bool.eqb s s' && Pos.eqb m m' && (e =? e')
      | _, _ => false
      end
  | JStr x, JStr y => String.eqb x y
  | JArr x, JArr y =>
      (fix go (x y : list json) {struct x} : bool :=
         match x, y with
         | [], [] => true
         | a' :: x', b' :: y' => json_eqb a' b' && go x' y'
         | _, _ => false
         end) x y
  | JObj x, JObj y =>
      (fix go (x y : list (string * json)) {struct x} : bool :=
         match x, y with
         | [], [] => true
         | (k, a') :: x', (k', b') :: y' =>
             String.eqb k k' && json_eqb a' b' && go x' y'
         | _, _ => false
         end) x y
  | _, _ => false
  end.

(** ["a.b"] names field [b] of the document in field [a]. *)
Fixpoint split_dots (s : string) : list string :=
  match s with
  | EmptyString => [EmptyString]
  | String c rest =>
      if Ascii.eqb c "."%char then EmptyString :: split_dots rest
      else match split_dots rest with
           | [] => [String c EmptyString]
           | h :: t => String c h :: t
           end
  end.

Fixpoint get_path (p : list string) (v : json) : option json :=
  match p with
  | [] => Some v
  | k :: p' =>
      match v with
      | JObj items =>
          match dict_get k items with
          | Some v' => get_path p' v'
          | None => None
          end
      | _ => None
      end
  end.

Definition field (name : string) (doc : json) : option json :=
  get_path (split_dots name) doc.

(** An expression: ["$path"] reads a field, a document evaluates its items
    (an item whose value is missing is left out), anything else is itself. *)
Fixpoint eval (e : json) (doc : json) {struct e} : option json :=
  match e with
  | JStr (String "$"%char p) => field p doc
  | JObj items =>
      Some (JObj
        ((fix go (items : list (string * json)) : list (string * json) :=
            match items with
            | [] => []
            | (k, e') :: rest =>
                match eval e' doc with
                | Some v => (k, v) :: go rest
                | None => go rest
                end
            end) items))
  | _ => Some e
  end.

(** *** [$match] *)

Definition is_operator (k : string) : bool :=
  match k with
  | String "$"%char _ => true
  | _ => false
  end.

(** One operator of a condition such as [{"$lte": end, "$gte": start}],
    against the field's value; only integers are ordered here, a value of
    another kind never satisfies a bound given as an integer. *)
Definition test_operator (op : string) (bound : json) (v : option json) : option bool :=
  match v, bound with
  | Some (JInt x), JInt b =>
      if String.eqb op "$lte" then Some (x <=? b)
      else if String.eqb op "$gte" then Some (b <=? x)
      else None
  | _, _ =>
      if String.eqb op "$lte" then Some false
      else if String.eqb op "$gte" then Some false
      else None
  end.

Fixpoint test_operators (ops : list (string * json)) (v : option json) : option bool :=
  match ops with
  | [] => Some true
  | (op, bound) :: rest =>
      match test_operator op bound v, test_operators rest v with
      | Some b, Some b' => Some (b && b')
      | _, _ => None
      end
  end.

Definition test_condition (cond : json) (v : option json) : option bool :=
  match cond with
  | JObj ((k, b) :: rest) =>
      if is_operator k then test_operators ((k, b) :: rest) v
      else Some (match v with Some x => json_eqb x cond | None => false end)
  | _ => Some (match v with Some x => json_eqb x cond | None => false end)
  end.

Fixpoint matches (query : list (string * json)) (doc : json) : option bool :=
  match query with
  | [] => Some true
  | (name, cond) :: rest =>
      match test_condition cond (field name doc), matches rest doc with
      | Some b, Some b' => Some (b && b')
      | _, _ => None
      end
  end.

Fixpoint match_stage (query : list (string * json)) (docs : list json) : option (list json) :=
  match docs with
  | [] => Some []
  | d :: rest =>
      match matches query d, match_stage query rest with
      | Some true, Some out => Some (d :: out)
      | Some false, Some out => Some out
      | _, _ => None
      end
  end.

(** *** [$group] *)

Definition group_key (id : json) (doc : json) : json :=
  match eval id doc with
  | Some k => k
  | None => JNull
  end.

Definition int_value (v : option json) : Z :=
  match v with
  | Some (JInt z) => z
  | _ => 0
  end.

Fixpoint present {A : Type} (l : list (option A)) : list A :=
  match l with
  | [] => []
  | Some a :: rest => a :: present rest
  | None :: rest => present rest
  end.

(** [{"$sum": e}] adds the integer values of [e] over the group (a value that
    is no number adds nothing), [{"$push": e}] lists them. *)
Definition accumulate (acc : json) (members : list json) : option json :=
  match acc with
  | JObj [(op, e)] =>
      if String.eqb op "$sum" then
        Some (JInt (fold_right Z.add 0 (map (fun d => int_value (eval e d)) members)))
      else if String.eqb op "$push" then
        Some (JArr (present (map (eval e) members)))
      else None
  | _ => None
  end.

Fixpoint accumulators (spec : list (string * json)) (members : list json)
  : option (list (string * json)) :=
  match spec with
  | [] => Some []
  | (name, acc) :: rest =>
      if String.eqb name "_id" then accumulators rest members
      else match accumulate acc members, accumulators rest members with
           | Some v, Some out => Some ((name, v) :: out)
           | _, _ => None
           end
  end.

Definition group_stage (spec : list (string * json)) (docs : list json) : option (list json) :=
  match dict_get "_id" spec with
  | None => None
  | Some id =>
      map_option
        (fun g : json * list json =>
           match accumulators spec (snd g) with
           | Some accs => Some (JObj (("_id", fst g) :: accs))
           | None => None
           end)
        (group_by json_eqb (group_key id) docs)
  end.

(** *** [$project] *)

(** [0] or [false] leaves a field out, another number or [true] keeps it. *)
Definition flag (v : json) : option bool :=
  match v with
  | JInt z => Some (negb (z =? 0))
  | JBool b => Some b
  | _ => None
  end.

Fixpoint project_fields (spec : list (string * json)) (doc : json)
  : option (list (string * json)) :=
  match spec with
  | [] => Some []
  | (name, v) :: rest =>
      match project_fields rest doc with
      | None => None
      | Some out =>
          if String.eqb name "_id" then Some out
          else match flag v with
               | Some true =>
                   Some (match field name doc with
                         | Some x => (name, x) :: out
                         | None => out
                         end)
               | Some false => None
               | None =>
                   Some (match eval v doc with
                         | Some x => (name, x) :: out
                         | None => out
                         end)
               end
      end
  end.

(** [_id] is kept unless the stage leaves it out. *)
Definition project_id (spec : list (string * json)) (doc : json) : list (string * json) :=
  match dict_get "_id" spec with
  | Some v =>
      match flag v with
      | Some false => []
      | Some true =>
          match field "_id" doc with Some x => [("_id", x)] | None => [] end
      | None =>
          match eval v doc with Some x => [("_id", x)] | None => [] end
      end
  | None =>
      match field "_id" doc with Some x => [("_id", x)] | None => [] end
  end.

Definition project_stage (spec : list (string * json)) (docs : list json) : option (list json) :=
  map_option
    (fun d => match project_fields spec d with
              | Some out => Some (JObj (project_id spec d ++ out))
              | None => None
              end)
    docs.

(** *** The pipeline *)

Definition run_stage (stage : json) (docs : list json) : option (list json) :=
  match stage with
  | JObj [(name, JObj spec)] =>
      if String.eqb name "$match" then match_stage spec docs
      else if String.eqb name "$group" then group_stage spec docs
      else if String.eqb name "$project" then project_stage spec docs
      else None
  | _ => None
  end.

Fixpoint run_stages (stages : list json) (docs : list json) : option (list json) :=
  match stages with
  | [] => Some docs
  | st :: rest =>
      match run_stage st docs with
      | Some docs' => run_stages rest docs'
      | None => None
      end
  end.

(** [collection.aggregate(pipeline)]: the documents the cursor will give. *)
Definition aggregate (pipeline : json) (coll : collection) : py (list json) :=
  match pipeline with
  | JArr stages =>
      match run_stages stages coll with
      | Some out => Return out
      | None => Raise OperationFailure
      end
  | _ => Raise TypeError
  end.

(** [cursor.to_list(length, callback)]: a negative [length] is refused at
    the call; otherwise the callback gets at most [length] documents, or the
    error of the command. *)
Definition to_list (length : Z) (cursor : py (list json)) : py (list json * option exn) :=
  if length <? 0 then Raise ValueError
  else match cursor with
       | Return docs => Return (firstn (Z.to_nat length) docs, None)
       | Raise e => Return ([], Some e)
       end.

(** [collection.insert(docs, callback)]: the collection afterwards and the
    error handed to the callback. The driver reads the whole batch before it
    writes: a generator that raises leaves the collection as it was, and so
    does an empty batch, which the driver refuses. The [_id] the driver gives
    each document is left out; the first [$group] of the pipeline drops it. *)
Definition insert (docs : generator json) (coll : collection) : collection * option exn :=
  match docs with
  | (_, Some e) => (coll, Some e)
  | ([], None) => (coll, Some InvalidOperation)
  | (batch, None) => ((coll ++ batch)%list, None)
  end.

(** *** [find().sort([(name, -1)])] *)

(** The value a document is sorted by. Only integers are ordered here: the
    handlers store nothing else in [time]; a document without an integer in
    the field comes after those that have one, as a missing field does. *)
Definition sort_key (name : string) (doc : json) : option Z :=
  match field name doc with
  | Some (JInt z) => Some z
  | _ => None
  end.

Definition key_geb (a b : option Z) : bool :=
  match a, b with
  | Some x, Some y => y <=? x
  | Some _, None => true
  | None, Some _ => false
  | None, None => true
  end.

Fixpoint insert_desc (name : string) (doc : json) (sorted : list json) : list json :=
  match sorted with
  | [] => [doc]
  | d :: rest =>
      if key_geb (sort_key name doc) (sort_key name d) then doc :: sorted
      else d :: insert_desc name doc rest
  end.

(** The documents of the collection, the larger value first. *)
Fixpoint sort_desc (name : string) (docs : list json) : list json :=
  match docs with
  | [] => []
  | d :: rest => insert_desc name d (sort_desc name rest)
  end.

End Mongo.

(** ** [events_aggregator.py] *)

(** Sampling resolutions, as the items of the dictionary, in one of the
    orders the dictionary may list them. The handlers below take the table as
    a parameter, since it "may be extended in future". *)
Definition TIME_RESOLUTIONS : list (string * Z) :=
  [("hour", 3600); ("day", 86400)].

Fixpoint lookup (k : string) (table : list (string * Z)) : option Z :=
  match table with
  | [] => None
  | (k', v) :: rest => if String.eqb k k' then Some v else lookup k rest
  end.

(** [table[k]] for a table with text keys: a key that cannot be hashed is a
    [TypeError], a key that is not there a [KeyError]. *)
Definition table_getitem (table : list (string * Z)) (k : json) : py Z :=
  match k with
  | JStr s =>
      match lookup s table with
      | Some v => Return v
      | None => Raise (KeyError k)
      end
  | JArr _ => Raise TypeError
  | JObj _ => Raise TypeError
  | _ => Raise (KeyError k)
  end.

(** What a handler leaves for the client: the status and the body written. *)
Record reply : Type := Reply {
  status : Z;
  body : option (list (json * json))
}.

(** The framework's answer to an exception that leaves a handler: an
    [HTTPError] carries its status, any other exception is a 500. *)
Definition http_status (r : py reply) : Z :=
  match r with
  | Return rep => status rep
  | Raise (HTTPError code) => code
  | Raise _ => 500
  end.

Module JSONRequestHandler.

(** The request's method and content type, and its body as [json.loads]
    reads it. *)
Definition prepare (method content_type : string) (loaded : py json) : py (option json) :=
  if String.eqb method "POST" then
    if String.prefix "application/json" content_type then
      json_args <- loaded;; Return (Some json_args)
    else Raise (HTTPError 400)
  else Return None.

(** [int(time - (time % resolution))]. Python's [%] takes the sign of the
    divisor, as [Z.modulo] does, and raises on a zero divisor. *)
Definition _round_time (time resolution : Z) : py Z :=
  if resolution =? 0 then Raise ZeroDivisionError
  else Return (time - (time mod resolution)).

(** [self.json_args.copy()]: only a dictionary has [copy]. *)
Definition copy (json_args : json) : py json :=
  match json_args with
  | JObj _ => Return json_args
  | _ => Raise AttributeError
  end.

End JSONRequestHandler.

Module EventsHandler.
Import JSONRequestHandler.

Section Handler.

Variable int_of_text : string -> option Z.
Variable resolutions : list (string * Z).

Fixpoint _prepare_timestamps (items : list (string * Z)) (time : Z) : generator Z :=
  match items with
  | [] => ([], None)
  | (resolution, seconds) :: rest =>
      match _round_time time seconds with
      | Raise e => ([], Some e)
      | Return round_time =>
          let (more, stop) := _prepare_timestamps rest time in
          (round_time :: more, stop)
      end
  end.

Definition _prepare_timestamps_for_insert (time : Z) : generator Z :=
  _prepare_timestamps resolutions time.

(** One document of the batch. *)
Definition document (data : json) (timestamp : Z) : py json :=
  type <- getitem data "type";;
  object_id <- getitem data "object_id";;
  Return (JObj [("type", type); ("time", JInt timestamp); ("object_id", object_id)]).

(** The generator expression over the timestamps. *)
Fixpoint documents (data : json) (timestamps : list Z) (stop : option exn) : generator json :=
  match timestamps with
  | [] => ([], stop)
  | timestamp :: rest =>
      match document data timestamp with
      | Raise e => ([], Some e)
      | Return d =>
          let (more, stop') := documents data rest stop in
          (d :: more, stop')
      end
  end.

(** The callback of the insert; its [result], the ids of the documents, is
    not used. *)
Definition _on_post_response (error : option exn) : py reply :=
  match error with
  | Some _ => Raise (HTTPError 500)
  | None => Return (Reply 200 None)
  end.

(** The collection after the request, and what the client gets. *)
Definition post (json_args : json) (db : Mongo.collection) : Mongo.collection * py reply :=
  match copy json_args with
  | Raise e => (db, Raise e)
  | Return data =>
      match (t <- getitem data "time";; int_ int_of_text t) with
      | Raise e => (db, Raise e)
      | Return time =>
          let (timestamps, stop) := _prepare_timestamps_for_insert time in
          let (db', error) := Mongo.insert (documents data timestamps stop) db in
          (db', _on_post_response error)
      end
  end.

End Handler.

(** What [GET /event] leaves for the client: the status and the documents
    written. *)
Definition _on_get_response (result : list json) (error : option exn) : py (Z * list json) :=
  match error with
  | Some _ => Raise (HTTPError 500)
  | None => Return (200, result)
  end.

(** [find().sort([('time', -1)]).to_list(max_items, callback)]. *)
Definition get (max_items : Z) (db : Mongo.collection) : py (Z * list json) :=
  answer <- Mongo.to_list max_items (Return (Mongo.sort_desc "time" db));;
  _on_get_response (fst answer) (snd answer).

End EventsHandler.

Module StatsHandler.
Import JSONRequestHandler.

(** A dictionary under construction: a key already there keeps its place and
    takes the new value. Lists and dictionaries cannot be keys. *)
Fixpoint dict_set (k v : json) (d : list (json * json)) : list (json * json) :=
  match d with
  | [] => [(k, v)]
  | (k', v') :: rest =>
      if Mongo.json_eqb k k' then (k', v) :: rest
      else (k', v') :: dict_set k v rest
  end.

Definition hashable (k : json) : bool :=
  match k with
  | JArr _ => false
  | JObj _ => false
  | _ => true
  end.

(** [{obj["type"]: obj["events"] for obj in result}]; the value is evaluated
    before the key. *)
Fixpoint comprehension (result : list json) (acc : list (json * json))
  : py (list (json * json)) :=
  match result with
  | [] => Return acc
  | obj :: rest =>
      v <- getitem obj "events";;
      k <- getitem obj "type";;
      if hashable k then comprehension rest (dict_set k v acc)
      else Raise TypeError
  end.

Definition _on_post_response (result : list json) (error : option exn) : py reply :=
  match error with
  | Some _ => Raise (HTTPError 500)
  | None =>
      response <- comprehension result [];;
      Return (Reply 200 (Some response))
  end.

Definition _compute_start_and_end (_now resolution limit : Z) : py (Z * Z) :=
  now <- _round_time _now resolution;;
  let start := now - (resolution * limit) in
  Return (start, now).

Section Handler.

Variable int_of_text : string -> option Z.
Variable resolutions : list (string * Z).
Variable max_items : Z.
(** [int(time.time())] when the request is served. *)
Variable _now : Z.

Definition post (json_args : json) (db : Mongo.collection) : py reply :=
  data <- copy json_args;;
  object_id <- (v <- getitem data "object_id";; int_ int_of_text v);;
  resolution <- (name <- getitem data "resolution";; table_getitem resolutions name);;
  limit <- (v <- getitem data "limit";; int_ int_of_text v);;
  window <- _compute_start_and_end _now resolution limit;;
  let pipeline := aggregate_events object_id (fst window) (snd window) in
  answer <- Mongo.to_list max_items (Mongo.aggregate pipeline db);;
  _on_post_response (fst answer) (snd answer).

End Handler.

End StatsHandler.

(** ** Rollup records

    The typed view of a stored document: what ingesting a well-formed event
    writes, and what the spec calls a RollupRecord. *)

Record RollupRecord : Type := Rollup {
  type : string;
  object_id : Z;
  bucket_time : Z
}.

Definition doc_of (r : RollupRecord) : json :=
  JObj [("type", JStr (type r)); ("time", JInt (bucket_time r));
        ("object_id", JInt (object_id r))].

(** The record is of the object and its bucket lies in the window. *)
Definition qualifies (oid start end_ : Z) (r : RollupRecord) : bool :=
  (object_id r =? oid) && ((bucket_time r <=? end_) && (start <=? bucket_time r)).

(** The stats result for a collection, a window and an object: the pipeline
    run on the collection and its documents handed to the callback. *)
Definition stats_result (oid start end_ : Z) (db : Mongo.collection) : py reply :=
  match Mongo.aggregate (aggregate_events oid start end_) db with
  | Return result => StatsHandler._on_post_response result None
  | Raise e => StatsHandler._on_post_response [] (Some e)
  end.

Definition total (l : list Z) : Z := fold_right Z.add 0 l.

(** The members listed under key [k]. *)
Definition members {A K : Type} (eqb : K -> K -> bool) (k : K)
  (gs : list (K * list A)) : list A :=
  match find (fun g => eqb k (fst g)) gs with
  | Some g => snd g
  | None => []
  end.

(** A group carried to another representation of keys and members. *)
Definition lift_group {A B K K' : Type} (f : A -> B) (g : K -> K')
  (p : K * list A) : K' * list B :=
  (g (fst p), map f (snd p)).

(** ** The two stages in the spec's words *)

Definition key_eqb (a b : string * Z) : bool :=
  String.eqb (fst a) (fst b) && (snd a =? snd b).

(** Count stage: group records by [(type, bucket_time)]; each group's count
    is the number of records in it. *)
Definition count_stage (rs : list RollupRecord) : list ((string * Z) * Z) :=
  map (fun g => (fst g, Z.of_nat (List.length (snd g))))
      (group_by key_eqb (fun r => (type r, bucket_time r)) rs).

(** Collect stage: group the counts by [type]; each type maps to the
    sequence of its [(time, events)] pairs. *)
Definition collect_stage (cs : list ((string * Z) * Z)) : list (string * list (Z * Z)) :=
  map (fun g => (fst g, map (fun c => (snd (fst c), snd c)) (snd g)))
      (group_by String.eqb (fun c => fst (fst c)) cs).

Definition point_doc (p : Z * Z) : json :=
  JObj [("events", JInt (snd p)); ("time", JInt (fst p))].

(** The entry of the response for a type and its points. *)
Definition entry (s : string * list (Z * Z)) : json * json :=
  (JStr (fst s), JArr (map point_doc (snd s))).

(** The documents between the stages. *)
Definition count_doc (c : (string * Z) * Z) : json :=
  JObj [("_id", JObj [("type", JStr (fst (fst c))); ("time", JInt (snd (fst c)))]);
        ("count", JInt (snd c))].

Definition flat_doc (c : (string * Z) * Z) : json :=
  JObj [("time", JInt (snd (fst c))); ("type", JStr (fst (fst c)));
        ("count", JInt (snd c))].

Definition series_doc (s : string * list (Z * Z)) : json :=
  JObj [("_id", JObj [("type", JStr (fst s))]);
        ("events", JArr (map point_doc (snd s)))].

Definition out_doc (s : string * list (Z * Z)) : json :=
  JObj [("type", JStr (fst s)); ("events", JArr (map point_doc (snd s)))].

Definition stage (n : nat) (pipeline : json) : json :=
  match pipeline with
  | JArr stages => nth n stages JNull
  | _ => JNull
  end.

Definition pair_key (k : string * Z) : json :=
  JObj [("type", JStr (fst k)); ("time", JInt (snd k))].

Definition type_key (ty : string) : json := JObj [("type", JStr ty)].

(** The series the pipeline computes for an object and a window. *)
Definition series (oid start end_ : Z) (rs : list RollupRecord)
  : list (string * list (Z * Z)) :=
  collect_stage (count_stage (filter (qualifies oid start end_) rs)).

(** The number of records of a type in a bucket. *)
Definition occurrences (ty : string) (t : Z) (rs : list RollupRecord) : Z :=
  Z.of_nat (List.length
    (filter (fun r => key_eqb (type r, bucket_time r) (ty, t)) rs)).

(** ** Requests *)

Record RawEvent : Type := Event {
  ev_type : string;
  ev_object_id : Z;
  ev_time : Z
}.

(** The body of [POST /event] for an event. *)
Definition event_request (e : RawEvent) : json :=
  JObj [("type", JStr (ev_type e)); ("object_id", JInt (ev_object_id e));
        ("time", JInt (ev_time e))].

(** The body of [POST /stats]. *)
Definition stats_request (oid : Z) (resolution : string) (limit : Z) : json :=
  JObj [("object_id", JInt oid); ("resolution", JStr resolution);
        ("limit", JInt limit)].

(** The record an event leaves under a bucket width. *)
Definition rollup (e : RawEvent) (width : Z) : RollupRecord :=
  Rollup (ev_type e) (ev_object_id e) (ev_time e / width * width).

Definition positive_widths (table : list (string * Z)) : Prop :=
  Forall (fun p => 0 < snd p) table.

(** A stored document with the given [type] and [object_id] values. *)
Definition stored (ty oid : json) (time : Z) : json :=
  JObj [("type", ty); ("time", JInt time); ("object_id", oid)].

(** The points of a response, and what a point says. *)
Definition points_of (response : list (json * json)) : list json :=
  flat_map (fun kv => match snd kv with JArr pts => pts | _ => [] end) response.

Definition point_events (p : json) : Z :=
  match p with
  | JObj items => Mongo.int_value (dict_get "events" items)
  | _ => 0
  end.

Definition point_time (p : json) : Z :=
  match p with
  | JObj items => Mongo.int_value (dict_get "time" items)
  | _ => 0
  end.

Definition total_events (response : list (json * json)) : Z :=
  total (map point_events (points_of response)).

(** What the ingest handler asks of a body: a dictionary with [type],
    [object_id] and [time], the last one readable by [int]. *)
Definition accepted (parser : string -> option Z) (data : json) : option (json * json * Z) :=
  match data with
  | JObj items =>
      match dict_get "type" items, dict_get "object_id" items, dict_get "time" items with
      | Some ty, Some oid, Some tv =>
          match int_ parser tv with
          | Return t => Some (ty, oid, t)
          | Raise _ => None
          end
      | _, _, _ => None
      end
  | _ => None
  end.

(** ** Stored documents *)

(** The document holds an integer in [time]. *)
Definition has_int_time (d : json) : Prop :=
  exists z, Mongo.field "time" d = Some (JInt z).

Definition time_of (d : json) : Z := Mongo.int_value (Mongo.field "time" d).

(** [a] may stand before [b] in a listing sorted by the field [name]. *)
Definition before (name : string) (a b : json) : Prop :=
  Mongo.key_geb (Mongo.sort_key name a) (Mongo.sort_key name b) = true.

(** The response reports [n] events of type [ty] in the bucket at [t]. *)
Definition reports (response : list (json * json)) (ty : string) (t n : Z) : Prop :=
  exists pts, In (JStr ty, JArr pts) response /\ In (point_doc (t, n)) pts.

(** The stored records of an object, a type and a bucket. *)
Definition count_records (oid : Z) (ty : string) (t : Z) (rs : list RollupRecord) : Z :=
  Z.of_nat (List.length
    (filter (fun r => (object_id r =? oid)
                      && (String.eqb (type r) ty && (bucket_time r =? t))) rs)).

(** An integer the store can hold: the driver encodes at most 8 bytes. *)
Definition int64 (z : Z) : Prop :=
  -9223372036854775808 <= z < 9223372036854775808.

(** The types among the records of an object in a window, each once. *)
Definition types_in (oid start end_ : Z) (rs : list RollupRecord) : list string :=
  nodup string_dec (map type (filter (qualifies oid start end_) rs)).

(** * Facts about grouping *)

Section GroupByFacts.

Context {A K : Type} (eqb : K -> K -> bool) (key : A -> K).
Hypothesis eqb_spec : forall x y, eqb x y = true <-> x = y.

Lemma eqb_refl_true (x : K) : eqb x x = true.
Proof. now apply eqb_spec. Qed.

Lemma eqb_false_neq (x y : K) : eqb x y = false <-> x <> y.
Proof.
  split.
  - intros H E. apply eqb_spec in E. congruence.
  - intros H. destruct (eqb x y) eqn:E; [apply eqb_spec in E; contradiction | reflexivity].
Qed.

Lemma members_insert (a : A) (k : K) (gs : list (K * list A)) :
  members eqb k (group_insert eqb key a gs)
  = if eqb (key a) k then a :: members eqb k gs else members eqb k gs.
Proof.
  unfold members. induction gs as [| [k' ms] rest IH]; simpl.
  - destruct (eqb k (key a)) eqn:E1, (eqb (key a) k) eqn:E2; try reflexivity.
    + apply eqb_spec in E1. apply eqb_false_neq in E2. congruence.
    + apply eqb_spec in E2. apply eqb_false_neq in E1. congruence.
  - destruct (eqb (key a) k') eqn:Ea; simpl.
    + apply eqb_spec in Ea. subst k'.
      destruct (eqb k (key a)) eqn:E1, (eqb (key a) k) eqn:E2; try reflexivity.
      * apply eqb_spec in E1. apply eqb_false_neq in E2. congruence.
      * apply eqb_spec in E2. apply eqb_false_neq in E1. congruence.
    + destruct (eqb k k') eqn:Ek.
      * apply eqb_spec in Ek. subst k'.
        now rewrite Ea.
      * exact IH.
Qed.

Lemma members_group_by (k : K) (l : list A) :
  members eqb k (group_by eqb key l) = filter (fun a => eqb (key a) k) l.
Proof.
  induction l as [| a rest IH]; simpl.
  - reflexivity.
  - rewrite members_insert, IH. reflexivity.
Qed.

Lemma keys_insert (a : A) (gs : list (K * list A)) (k : K) :
  In k (map fst (group_insert eqb key a gs)) <-> In k (map fst gs) \/ k = key a.
Proof.
  induction gs as [| [k' ms] rest IH]; simpl.
  - intuition congruence.
  - destruct (eqb (key a) k') eqn:Ea; simpl.
    + apply eqb_spec in Ea. subst k'. intuition congruence.
    + rewrite IH. tauto.
Qed.

Lemma keys_insert_NoDup (a : A) (gs : list (K * list A)) :
  NoDup (map fst gs) -> NoDup (map fst (group_insert eqb key a gs)).
Proof.
  induction gs as [| [k' ms] rest IH]; simpl; intros H.
  - constructor; [intros [] | constructor].
  - inversion H as [| ? ? Hn Hr]; subst.
    destruct (eqb (key a) k') eqn:Ea; simpl.
    + constructor; assumption.
    + constructor.
      * rewrite keys_insert. intros [Hin | ->]; [contradiction |].
        rewrite eqb_refl_true in Ea. discriminate.
      * now apply IH.
Qed.

Lemma group_by_keys_NoDup (l : list A) : NoDup (map fst (group_by eqb key l)).
Proof.
  induction l as [| a rest IH]; simpl.
  - constructor.
  - now apply keys_insert_NoDup.
Qed.

Lemma group_by_keys (l : list A) (k : K) :
  In k (map fst (group_by eqb key l)) <-> exists a, In a l /\ key a = k.
Proof.
  induction l as [| a rest IH]; simpl.
  - split; [intros [] | intros (a & [] & _)].
  - rewrite keys_insert, IH. split.
    + intros [(b & Hb & E) | ->]; eauto.
    + intros (b & [-> | Hb] & E); [right; congruence | left; eauto].
Qed.

Lemma members_of_group (gs : list (K * list A)) (k : K) (ms : list A) :
  NoDup (map fst gs) -> In (k, ms) gs -> members eqb k gs = ms.
Proof.
  unfold members. induction gs as [| [k' ms'] rest IH]; simpl; intros Hnd Hin.
  - destruct Hin.
  - inversion Hnd as [| ? ? Hn Hr]; subst.
    destruct Hin as [E | Hin].
    + inversion E; subst. now rewrite eqb_refl_true.
    + destruct (eqb k k') eqn:Ek.
      * apply eqb_spec in Ek. subst k'.
        exfalso. apply Hn. apply in_map_iff. now exists (k, ms).
      * now apply IH.
Qed.

(** A group holds exactly the elements of its key, in the order of the
    list. *)
Lemma group_by_members (l : list A) (k : K) (ms : list A) :
  In (k, ms) (group_by eqb key l) -> ms = filter (fun a => eqb (key a) k) l.
Proof.
  intros Hin. rewrite <- members_group_by.
  symmetry. apply members_of_group; [apply group_by_keys_NoDup | exact Hin].
Qed.

Lemma group_by_nonempty (l : list A) (k : K) (ms : list A) :
  In (k, ms) (group_by eqb key l) -> ms <> [].
Proof.
  intros Hin.
  assert (Hk : In k (map fst (group_by eqb key l))).
  { apply in_map_iff. now exists (k, ms). }
  apply group_by_keys in Hk. destruct Hk as (a & Ha & E).
  rewrite (group_by_members _ _ _ Hin). intros Hnil.
  assert (Hf : In a (filter (fun a => eqb (key a) k) l)).
  { apply filter_In. split; [exact Ha | now apply eqb_spec]. }
  rewrite Hnil in Hf. destruct Hf.
Qed.

Lemma group_by_complete (l : list A) (a : A) :
  In a l ->
  In (key a, filter (fun b => eqb (key b) (key a)) l) (group_by eqb key l).
Proof.
  intros Ha.
  assert (Hk : In (key a) (map fst (group_by eqb key l))).
  { apply group_by_keys. now exists a. }
  apply in_map_iff in Hk. destruct Hk as ([k ms] & E & Hin). simpl in E. subst k.
  now rewrite <- (group_by_members _ _ _ Hin).
Qed.

(** Grouping loses nothing and counts nothing twice. *)
Lemma group_insert_total (f : A -> Z) (a : A) (gs : list (K * list A)) :
  total (map (fun g => total (map f (snd g))) (group_insert eqb key a gs))
  = f a + total (map (fun g => total (map f (snd g))) gs).
Proof.
  unfold total. induction gs as [| [k ms] rest IH]; simpl.
  - lia.
  - destruct (eqb (key a) k); simpl; [lia | rewrite IH; lia].
Qed.

Lemma group_by_total (f : A -> Z) (l : list A) :
  total (map (fun g => total (map f (snd g))) (group_by eqb key l))
  = total (map f l).
Proof.
  induction l as [| a rest IH]; simpl.
  - reflexivity.
  - rewrite group_insert_total, IH. reflexivity.
Qed.

End GroupByFacts.

(** Grouping commutes with a change of representation that keeps keys
    apart. *)
Section GroupByMap.

Context {A B K K' : Type}.
Context (eqb : K -> K -> bool) (key : A -> K).
Context (eqb' : K' -> K' -> bool) (key' : B -> K').
Context (f : A -> B) (g : K -> K').
Hypothesis eqb_g : forall k1 k2, eqb' (g k1) (g k2) = eqb k1 k2.
Hypothesis key_f : forall a, key' (f a) = g (key a).

Lemma group_insert_map (a : A) (gs : list (K * list A)) :
  group_insert eqb' key' (f a) (map (lift_group f g) gs)
  = map (lift_group f g) (group_insert eqb key a gs).
Proof.
  induction gs as [| [k ms] rest IH]; simpl.
  - unfold lift_group. simpl. now rewrite key_f.
  - unfold lift_group at 1. simpl. rewrite key_f, eqb_g.
    destruct (eqb (key a) k); simpl.
    + reflexivity.
    + now rewrite IH.
Qed.

Lemma group_by_map (l : list A) :
  group_by eqb' key' (map f l) = map (lift_group f g) (group_by eqb key l).
Proof.
  induction l as [| a rest IH]; simpl.
  - reflexivity.
  - rewrite IH. apply group_insert_map.
Qed.

End GroupByMap.

(** * The pipeline on rollup records *)

Lemma map_option_map {A B C : Type} (f : B -> option C) (h : A -> B) (k : A -> C)
  (l : list A) :
  (forall x, f (h x) = Some (k x)) -> map_option f (map h l) = Some (map k l).
Proof.
  intros H. induction l as [| a rest IH]; simpl.
  - reflexivity.
  - now rewrite H, IH.
Qed.

Lemma key_eqb_spec (x y : string * Z) : key_eqb x y = true <-> x = y.
Proof.
  destruct x as [s t], y as [s' t']. unfold key_eqb. simpl.
  rewrite andb_true_iff, String.eqb_eq, Z.eqb_eq.
  split; [intros [-> ->]; reflexivity | intros E; inversion E; auto].
Qed.

Lemma matches_record (oid start end_ : Z) (r : RollupRecord) :
  Mongo.matches
    [("object_id", JInt oid);
     ("time", JObj [("$lte", JInt end_); ("$gte", JInt start)])]
    (doc_of r)
  = Some (qualifies oid start end_ r).
Proof.
  destruct r as [ty o t]. unfold qualifies. cbn [object_id bucket_time].
  transitivity (Some ((o =? oid) && (((t <=? end_) && ((start <=? t) && true)) && true))).
  - reflexivity.
  - now rewrite !andb_true_r.
Qed.

Lemma match_stage_records (oid start end_ : Z) (rs : list RollupRecord) :
  Mongo.run_stage (stage 0 (aggregate_events oid start end_)) (map doc_of rs)
  = Some (map doc_of (filter (qualifies oid start end_) rs)).
Proof.
  change (Mongo.run_stage (stage 0 (aggregate_events oid start end_)) (map doc_of rs))
    with (Mongo.match_stage
            [("object_id", JInt oid);
             ("time", JObj [("$lte", JInt end_); ("$gte", JInt start)])]
            (map doc_of rs)).
  induction rs as [| r rest IH].
  - reflexivity.
  - cbn [map Mongo.match_stage filter].
    rewrite matches_record, IH.
    destruct (qualifies oid start end_ r); reflexivity.
Qed.

Lemma total_ones {A : Type} (l : list A) :
  total (map (fun _ => 1) l) = Z.of_nat (List.length l).
Proof.
  unfold total. induction l as [| a rest IH]; cbn [map fold_right List.length].
  - reflexivity.
  - rewrite IH, Nat2Z.inj_succ. lia.
Qed.

Lemma count_group_stage (oid start end_ : Z) (rs : list RollupRecord) :
  Mongo.run_stage (stage 1 (aggregate_events oid start end_)) (map doc_of rs)
  = Some (map count_doc (count_stage rs)).
Proof.
  change (Mongo.run_stage (stage 1 (aggregate_events oid start end_)) (map doc_of rs))
    with (Mongo.group_stage
            [("_id", JObj [("type", JStr "$type"); ("time", JStr "$time")]);
             ("count", JObj [("$sum", JInt 1)])]
            (map doc_of rs)).
  unfold Mongo.group_stage. cbn [dict_get String.eqb Ascii.eqb Bool.eqb].
  rewrite (group_by_map key_eqb (fun r => (type r, bucket_time r))
             Mongo.json_eqb _ doc_of pair_key).
  - unfold count_stage. rewrite map_map.
    apply map_option_map. intros [k ms].
    unfold lift_group, count_doc. cbn [fst snd].
    replace (Mongo.accumulators _ (map doc_of ms))
      with (Some [("count", JInt (total (map (fun _ => 1) ms)))]).
    + now rewrite total_ones.
    + unfold Mongo.accumulators, Mongo.accumulate.
      cbn [String.eqb Ascii.eqb Bool.eqb]. rewrite map_map. reflexivity.
  - intros [s t] [s' t']. unfold key_eqb, pair_key. cbn.
    rewrite !andb_true_r. reflexivity.
  - intros [ty o t]. reflexivity.
Qed.

Lemma first_project_stage (oid start end_ : Z) (cs : list ((string * Z) * Z)) :
  Mongo.run_stage (stage 2 (aggregate_events oid start end_)) (map count_doc cs)
  = Some (map flat_doc cs).
Proof.
  change (Mongo.run_stage (stage 2 (aggregate_events oid start end_)) (map count_doc cs))
    with (Mongo.project_stage
            [("_id", JInt 0); ("time", JStr "$_id.time"); ("type", JStr "$_id.type");
             ("object_id", JInt 1); ("count", JInt 1)]
            (map count_doc cs)).
  unfold Mongo.project_stage. apply map_option_map.
  intros [[ty t] n]. reflexivity.
Qed.

Lemma push_points (ms : list ((string * Z) * Z)) :
  Mongo.present
    (map (Mongo.eval (JObj [("events", JStr "$count"); ("time", JStr "$time")]))
         (map flat_doc ms))
  = map point_doc (map (fun c => (snd (fst c), snd c)) ms).
Proof.
  induction ms as [| [[ty t] n] rest IH].
  - reflexivity.
  - cbn [map]. rewrite <- IH. reflexivity.
Qed.

Lemma collect_group_stage (oid start end_ : Z) (cs : list ((string * Z) * Z)) :
  Mongo.run_stage (stage 3 (aggregate_events oid start end_)) (map flat_doc cs)
  = Some (map series_doc (collect_stage cs)).
Proof.
  change (Mongo.run_stage (stage 3 (aggregate_events oid start end_)) (map flat_doc cs))
    with (Mongo.group_stage
            [("_id", JObj [("type", JStr "$type")]);
             ("events", JObj [("$push", JObj [("events", JStr "$count");
                                              ("time", JStr "$time")])])]
            (map flat_doc cs)).
  unfold Mongo.group_stage. cbn [dict_get String.eqb Ascii.eqb Bool.eqb].
  rewrite (group_by_map String.eqb (fun c : (string * Z) * Z => fst (fst c))
             Mongo.json_eqb _ flat_doc type_key).
  - unfold collect_stage. rewrite map_map.
    apply map_option_map. intros [k ms].
    unfold lift_group, series_doc. cbn [fst snd].
    unfold Mongo.accumulators, Mongo.accumulate.
    cbn [String.eqb Ascii.eqb Bool.eqb].
    rewrite push_points. reflexivity.
  - intros s s'. unfold type_key. cbn. rewrite !andb_true_r. reflexivity.
  - intros [[ty t] n]. reflexivity.
Qed.

Lemma last_project_stage (oid start end_ : Z) (ss : list (string * list (Z * Z))) :
  Mongo.run_stage (stage 4 (aggregate_events oid start end_)) (map series_doc ss)
  = Some (map out_doc ss).
Proof.
  change (Mongo.run_stage (stage 4 (aggregate_events oid start end_)) (map series_doc ss))
    with (Mongo.project_stage
            [("_id", JInt 0); ("type", JStr "$_id.type"); ("events", JInt 1)]
            (map series_doc ss)).
  unfold Mongo.project_stage. apply map_option_map.
  intros [ty pts]. reflexivity.
Qed.

Lemma aggregate_records (oid start end_ : Z) (rs : list RollupRecord) :
  Mongo.aggregate (aggregate_events oid start end_) (map doc_of rs)
  = Return (map out_doc (series oid start end_ rs)).
Proof.
  unfold Mongo.aggregate.
  change (aggregate_events oid start end_)
    with (JArr [stage 0 (aggregate_events oid start end_);
                stage 1 (aggregate_events oid start end_);
                stage 2 (aggregate_events oid start end_);
                stage 3 (aggregate_events oid start end_);
                stage 4 (aggregate_events oid start end_)]).
  cbv beta iota delta [Mongo.run_stages].
  rewrite match_stage_records, count_group_stage, first_project_stage,
    collect_group_stage, last_project_stage.
  reflexivity.
Qed.

(** ** The response *)

Lemma dict_set_fresh (ty : string) (v : json) (acc : list (string * list (Z * Z))) :
  ~ In ty (map fst acc) ->
  StatsHandler.dict_set (JStr ty) v (map entry acc) = (map entry acc ++ [(JStr ty, v)])%list.
Proof.
  induction acc as [| [ty' pts] rest IH]; intros Hn.
  - reflexivity.
  - cbn [map entry fst snd StatsHandler.dict_set Mongo.json_eqb app].
    destruct (String.eqb ty ty') eqn:E.
    + apply String.eqb_eq in E. subst ty'. exfalso. apply Hn. now left.
    + fold (entry (ty', pts)). f_equal. apply IH. intros Hin. apply Hn. now right.
Qed.

Lemma comprehension_series (ss acc : list (string * list (Z * Z))) :
  NoDup (map fst (acc ++ ss)) ->
  StatsHandler.comprehension (map out_doc ss) (map entry acc)
  = Return (map entry (acc ++ ss)).
Proof.
  revert acc. induction ss as [| [ty pts] rest IH]; intros acc Hnd.
  - now rewrite app_nil_r.
  - change (map out_doc ((ty, pts) :: rest))
      with (out_doc (ty, pts) :: map out_doc rest).
    unfold StatsHandler.comprehension at 1. fold StatsHandler.comprehension.
    unfold out_doc at 1 2, getitem, bind.
    cbn [fst snd dict_get String.eqb Ascii.eqb Bool.eqb StatsHandler.hashable].
    rewrite dict_set_fresh.
    + change [(JStr ty, JArr (map point_doc pts))] with (map entry [(ty, pts)]).
      rewrite <- map_app, IH.
      * now rewrite <- app_assoc.
      * now rewrite <- app_assoc.
    + rewrite map_app in Hnd. apply NoDup_remove_2 in Hnd.
      intros Hin. apply Hnd. apply in_or_app. now left.
Qed.

Lemma collect_stage_keys (cs : list ((string * Z) * Z)) :
  map fst (collect_stage cs)
  = map fst (group_by String.eqb (fun c : (string * Z) * Z => fst (fst c)) cs).
Proof.
  unfold collect_stage. rewrite map_map. reflexivity.
Qed.

Lemma series_NoDup (oid start end_ : Z) (rs : list RollupRecord) :
  NoDup (map fst (series oid start end_ rs)).
Proof.
  unfold series. rewrite collect_stage_keys.
  apply group_by_keys_NoDup. intros x y. apply String.eqb_eq.
Qed.

(** The stats result on a collection of rollup records, in closed form. *)
Lemma stats_result_records (oid start end_ : Z) (rs : list RollupRecord) :
  stats_result oid start end_ (map doc_of rs)
  = Return (Reply 200 (Some (map entry (series oid start end_ rs)))).
Proof.
  unfold stats_result. rewrite aggregate_records.
  unfold StatsHandler._on_post_response.
  rewrite (comprehension_series _ []).
  - reflexivity.
  - apply series_NoDup.
Qed.

(** ** What the two stages hold *)

Lemma count_stage_In (rs : list RollupRecord) (ty : string) (t n : Z) :
  In ((ty, t), n) (count_stage rs) <-> 1 <= n /\ n = occurrences ty t rs.
Proof.
  unfold count_stage, occurrences. rewrite in_map_iff. split.
  - intros ([k ms] & E & Hin). cbn [fst snd] in E. inversion E; subst.
    pose proof (group_by_nonempty _ _ key_eqb_spec _ _ _ Hin) as Hne.
    rewrite <- (group_by_members _ _ key_eqb_spec _ _ _ Hin).
    split; [| reflexivity].
    destruct ms; [contradiction | cbn [List.length]; lia].
  - intros [Hpos ->].
    remember (filter (fun r => key_eqb (type r, bucket_time r) (ty, t)) rs) as ms eqn:Ems.
    destruct ms as [| r ms']; [cbn [List.length] in Hpos; lia |].
    assert (Hr : In r (filter (fun r => key_eqb (type r, bucket_time r) (ty, t)) rs)).
    { rewrite <- Ems. now left. }
    apply filter_In in Hr. destruct Hr as [Hr Hk]. apply key_eqb_spec in Hk.
    pose proof (group_by_complete key_eqb (fun r => (type r, bucket_time r))
                  key_eqb_spec rs r Hr) as Hg.
    cbv beta in Hg. rewrite Hk in Hg. rewrite <- Ems in Hg.
    exists ((ty, t), r :: ms'). split; [reflexivity | exact Hg].
Qed.

Lemma count_stage_NoDup (rs : list RollupRecord) : NoDup (map fst (count_stage rs)).
Proof.
  unfold count_stage. rewrite map_map. cbn [fst].
  apply (group_by_keys_NoDup key_eqb (fun r => (type r, bucket_time r)) key_eqb_spec).
Qed.

Lemma collect_stage_In (cs : list ((string * Z) * Z)) (ty : string) (pts : list (Z * Z)) :
  In (ty, pts) (collect_stage cs) <->
  pts <> [] /\
  pts = map (fun c => (snd (fst c), snd c))
            (filter (fun c : (string * Z) * Z => String.eqb (fst (fst c)) ty) cs).
Proof.
  unfold collect_stage. rewrite in_map_iff. split.
  - intros ([k ms] & E & Hin). cbn [fst snd] in E. inversion E; subst.
    pose proof (group_by_nonempty _ _ String.eqb_eq _ _ _ Hin) as Hne.
    rewrite <- (group_by_members _ _ String.eqb_eq _ _ _ Hin).
    split; [| reflexivity].
    destruct ms; [contradiction | discriminate].
  - intros [Hne ->].
    remember (filter (fun c : (string * Z) * Z => String.eqb (fst (fst c)) ty) cs) as ms eqn:Ems.
    destruct ms as [| c ms']; [contradiction |].
    assert (Hc : In c (filter (fun c : (string * Z) * Z => String.eqb (fst (fst c)) ty) cs)).
    { rewrite <- Ems. now left. }
    apply filter_In in Hc. destruct Hc as [Hc Hk]. apply String.eqb_eq in Hk.
    pose proof (group_by_complete String.eqb (fun c : (string * Z) * Z => fst (fst c))
                  String.eqb_eq cs c Hc) as Hg.
    cbv beta in Hg. rewrite Hk in Hg. rewrite <- Ems in Hg.
    exists (ty, c :: ms'). split; [reflexivity | exact Hg].
Qed.

(** A point of the series of a type is a count of the count stage, and the
    other way round. *)
Lemma series_point (oid start end_ : Z) (rs : list RollupRecord)
  (ty : string) (t n : Z) :
  (exists pts, In (ty, pts) (series oid start end_ rs) /\ In (t, n) pts) <->
  1 <= n /\ n = occurrences ty t (filter (qualifies oid start end_) rs).
Proof.
  unfold series. rewrite <- count_stage_In.
  set (cs := count_stage (filter (qualifies oid start end_) rs)).
  split.
  - intros (pts & Hin & Hp). apply collect_stage_In in Hin.
    destruct Hin as [_ ->]. apply in_map_iff in Hp.
    destruct Hp as ([[ty' t'] n'] & E & Hc). cbn [fst snd] in E. inversion E; subst.
    apply filter_In in Hc. destruct Hc as [Hc Hk]. cbn [fst] in Hk.
    apply String.eqb_eq in Hk. now subst.
  - intros Hc.
    exists (map (fun c => (snd (fst c), snd c))
              (filter (fun c : (string * Z) * Z => String.eqb (fst (fst c)) ty) cs)).
    assert (Hf : In ((ty, t), n)
                   (filter (fun c : (string * Z) * Z => String.eqb (fst (fst c)) ty) cs)).
    { apply filter_In. split; [exact Hc | apply String.eqb_refl]. }
    split.
    + apply collect_stage_In. split; [| reflexivity].
      intros Hnil. apply (in_map (fun c : (string * Z) * Z => (snd (fst c), snd c))) in Hf.
      rewrite Hnil in Hf. destruct Hf.
    + apply (in_map (fun c : (string * Z) * Z => (snd (fst c), snd c))) in Hf. exact Hf.
Qed.

(** * The time bucketer *)

Lemma round_time_value (t w : Z) :
  w <> 0 -> JSONRequestHandler._round_time t w = Return (t / w * w).
Proof.
  intros Hw. unfold JSONRequestHandler._round_time.
  destruct (w =? 0) eqn:E; [apply Z.eqb_eq in E; contradiction |].
  f_equal. rewrite Z.mod_eq by exact Hw. lia.
Qed.

(** C4. For every integer [t] and width [w > 0], [_round_time t w] is
    [t - (t mod w)] with [0 <= t mod w < w]; it is a multiple of [w], it does
    not exceed [t], the next multiple does, and no multiple of [w] that does
    not exceed [t] is larger: rounding is toward minus infinity, also for
    negative [t]. *)
Theorem round_time_largest_multiple (t w : Z) :
  0 < w ->
  exists r,
    JSONRequestHandler._round_time t w = Return r /\
    r = t - (t mod w) /\ 0 <= t mod w < w /\
    r <= t /\ t < r + w /\
    (w | r) /\
    (forall m, (w | m) -> m <= t -> m <= r).
Proof.
  intros Hw. exists (t / w * w).
  pose proof (Z.mod_pos_bound t w Hw) as Hm.
  pose proof (Z.mod_eq t w ltac:(lia)) as He.
  repeat split; try lia.
  - apply round_time_value. lia.
  - now exists (t / w).
  - intros m [q ->] Hq.
    assert (q <= t / w); [| nia].
    apply Z.div_le_lower_bound; lia.
Qed.

Lemma round_time_largest_multiple_witness :
  exists r,
    JSONRequestHandler._round_time (-1) 3600 = Return r /\
    r = -1 - (-1 mod 3600) /\ 0 <= -1 mod 3600 < 3600 /\
    r <= -1 /\ -1 < r + 3600 /\
    (3600 | r) /\
    (forall m, (3600 | m) -> m <= -1 -> m <= r).
Proof. apply (round_time_largest_multiple (-1) 3600). lia. Defined.

(** C5. Rounding is idempotent: for every integer [t] and width [w > 0],
    rounding the rounded time again gives the rounded time. *)
Theorem round_time_idempotent (t w : Z) :
  0 < w ->
  exists r,
    JSONRequestHandler._round_time t w = Return r /\
    JSONRequestHandler._round_time r w = Return r.
Proof.
  intros Hw. exists (t / w * w). split.
  - apply round_time_value. lia.
  - rewrite round_time_value by lia. f_equal.
    rewrite Z.div_mul by lia. reflexivity.
Qed.

Lemma round_time_idempotent_witness :
  exists r,
    JSONRequestHandler._round_time 3661 3600 = Return r /\
    JSONRequestHandler._round_time r 3600 = Return r.
Proof. apply (round_time_idempotent 3661 3600). lia. Defined.

(** * The rollup writer *)

Lemma prepare_timestamps_positive (table : list (string * Z)) (t : Z) :
  positive_widths table ->
  EventsHandler._prepare_timestamps table t
  = (map (fun p => t / snd p * snd p) table, None).
Proof.
  induction 1 as [| [name w] rest Hw _ IH]; simpl.
  - reflexivity.
  - simpl in Hw. rewrite round_time_value by lia. now rewrite IH.
Qed.

Lemma documents_present (data ty oid : json) (ts : list Z) :
  getitem data "type" = Return ty ->
  getitem data "object_id" = Return oid ->
  EventsHandler.documents data ts None = (map (stored ty oid) ts, None).
Proof.
  intros Hty Hoid. induction ts as [| t rest IH]; simpl.
  - reflexivity.
  - unfold EventsHandler.document. rewrite Hty, Hoid. simpl. now rewrite IH.
Qed.

Lemma post_accepted (parser : string -> option Z) (table : list (string * Z))
  (items : list (string * json)) (ty oid tv : json) (t : Z) (db : Mongo.collection) :
  table <> [] ->
  positive_widths table ->
  dict_get "type" items = Some ty ->
  dict_get "object_id" items = Some oid ->
  dict_get "time" items = Some tv ->
  int_ parser tv = Return t ->
  EventsHandler.post parser table (JObj items) db
  = ((db ++ map (fun p => stored ty oid (t / snd p * snd p)) table)%list,
     Return (Reply 200 None)).
Proof.
  intros Hne Hpos Hty Hoid Htv Ht.
  unfold EventsHandler.post, JSONRequestHandler.copy, getitem, bind.
  rewrite Htv, Ht.
  unfold EventsHandler._prepare_timestamps_for_insert.
  rewrite prepare_timestamps_positive by exact Hpos.
  rewrite (documents_present _ ty oid).
  - rewrite map_map. destruct table as [| p rest]; [contradiction | reflexivity].
  - unfold getitem. now rewrite Hty.
  - unfold getitem. now rewrite Hoid.
Qed.

(** C1. With a table of [N >= 1] resolutions of positive width, ingesting an
    event adds exactly [N] records to the collection, one per resolution in the
    table, each with the event's [type] and [object_id] and with
    [bucket_time = floor(time / width) * width]; with the default table an
    event at 3661 leaves the hour bucket 3600 and the day bucket 0. *)
Theorem ingest_one_record_per_resolution (parser : string -> option Z)
  (table : list (string * Z)) (e : RawEvent) (db : Mongo.collection) :
  table <> [] ->
  positive_widths table ->
  EventsHandler.post parser table (event_request e) db
  = ((db ++ map (fun p => doc_of (rollup e (snd p))) table)%list,
     Return (Reply 200 None))
  /\ List.length (map (fun p => doc_of (rollup e (snd p))) table) = List.length table
  /\ Forall2 (fun p d =>
       d = doc_of (Rollup (ev_type e) (ev_object_id e)
                          (ev_time e / snd p * snd p)))
       table (map (fun p => doc_of (rollup e (snd p))) table)
  /\ map (fun p => rollup (Event (ev_type e) (ev_object_id e) 3661) (snd p))
         TIME_RESOLUTIONS
     = [Rollup (ev_type e) (ev_object_id e) 3600;
        Rollup (ev_type e) (ev_object_id e) 0].
Proof.
  intros Hne Hpos. repeat split.
  - destruct e as [ty oid t]. unfold event_request. cbn [ev_type ev_object_id ev_time].
    rewrite (post_accepted parser table _ (JStr ty) (JInt oid) (JInt t) t);
      try reflexivity; assumption.
  - apply length_map.
  - clear Hne Hpos. induction table as [| p rest IH]; simpl; constructor; auto.
Qed.

Lemma ingest_one_record_per_resolution_witness :
  EventsHandler.post (fun _ => None) TIME_RESOLUTIONS
    (event_request (Event "click" 7 3661)) []
  = ([doc_of (Rollup "click" 7 3600); doc_of (Rollup "click" 7 0)],
     Return (Reply 200 None)).
Proof.
  apply (ingest_one_record_per_resolution (fun _ => None) TIME_RESOLUTIONS
           (Event "click" 7 3661) []).
  - discriminate.
  - repeat constructor.
Defined.

(** * The range query planner *)

(** C3. For a width [w > 0], a limit [>= 0] and a current time [t], the
    planner returns [(start, end)] with [end] the rounded current time and
    [start = end - w * limit], so [start <= end]; a record of the queried
    object passes the pipeline's [$match] stage exactly when
    [start <= bucket_time <= end]; limit 0 gives [(end, end)]; and "hour",
    limit 3 at time 10000 gives [(-3600, 7200)]. *)
Theorem planner_window (t w limit : Z) :
  0 < w -> 0 <= limit ->
  exists start end_,
    JSONRequestHandler._round_time t w = Return end_ /\
    start = end_ - w * limit /\
    StatsHandler._compute_start_and_end t w limit = Return (start, end_) /\
    start <= end_ /\
    (forall r : RollupRecord,
       Mongo.run_stage (stage 0 (aggregate_events (object_id r) start end_)) [doc_of r]
       = Some (if (start <=? bucket_time r) && (bucket_time r <=? end_)
               then [doc_of r] else [])) /\
    (forall r : RollupRecord,
       qualifies (object_id r) start end_ r = true <->
       start <= bucket_time r <= end_) /\
    StatsHandler._compute_start_and_end t w 0 = Return (end_, end_) /\
    (r <- table_getitem TIME_RESOLUTIONS (JStr "hour");;
     StatsHandler._compute_start_and_end 10000 r 3) = Return (-3600, 7200).
Proof.
  intros Hw Hl. exists (t / w * w - w * limit), (t / w * w).
  assert (Hr : JSONRequestHandler._round_time t w = Return (t / w * w))
    by (apply round_time_value; lia).
  repeat split.
  - exact Hr.
  - unfold StatsHandler._compute_start_and_end. now rewrite Hr.
  - nia.
  - intros r. rewrite (match_stage_records _ _ _ [r]). cbn [filter map].
    unfold qualifies. rewrite Z.eqb_refl. cbn [andb].
    rewrite (andb_comm (bucket_time r <=? t / w * w)).
    now destruct ((t / w * w - w * limit <=? bucket_time r)
                  && (bucket_time r <=? t / w * w)).
  - unfold qualifies in H. rewrite Z.eqb_refl in H. cbn [andb] in H.
    apply andb_true_iff in H. destruct H as [_ H]. now apply Z.leb_le.
  - unfold qualifies in H. rewrite Z.eqb_refl in H. cbn [andb] in H.
    apply andb_true_iff in H. destruct H as [H _]. now apply Z.leb_le.
  - intros [H1 H2]. unfold qualifies. rewrite Z.eqb_refl. cbn [andb].
    apply andb_true_iff. split; now apply Z.leb_le.
  - unfold StatsHandler._compute_start_and_end. rewrite Hr. cbn [bind].
    do 2 f_equal. lia.
Qed.

Lemma planner_window_witness :
  exists start end_,
    JSONRequestHandler._round_time 10000 3600 = Return end_ /\
    start = end_ - 3600 * 3 /\
    StatsHandler._compute_start_and_end 10000 3600 3 = Return (start, end_) /\
    start <= end_ /\
    (forall r : RollupRecord,
       Mongo.run_stage (stage 0 (aggregate_events (object_id r) start end_)) [doc_of r]
       = Some (if (start <=? bucket_time r) && (bucket_time r <=? end_)
               then [doc_of r] else [])) /\
    (forall r : RollupRecord,
       qualifies (object_id r) start end_ r = true <->
       start <= bucket_time r <= end_) /\
    StatsHandler._compute_start_and_end 10000 3600 0 = Return (end_, end_) /\
    (r <- table_getitem TIME_RESOLUTIONS (JStr "hour");;
     StatsHandler._compute_start_and_end 10000 r 3) = Return (-3600, 7200).
Proof. apply (planner_window 10000 3600 3); lia. Defined.

(** * The aggregation pipeline *)

Lemma points_of_entries (ss : list (string * list (Z * Z))) :
  points_of (map entry ss) = map point_doc (flat_map snd ss).
Proof.
  unfold points_of. induction ss as [| [ty pts] rest IH].
  - reflexivity.
  - cbn [map flat_map entry fst snd]. rewrite map_app. f_equal. exact IH.
Qed.

Lemma total_app (l l' : list Z) : total (l ++ l') = total l + total l'.
Proof.
  unfold total. induction l as [| a rest IH]; simpl; [reflexivity | lia].
Qed.

Lemma total_flat_map {A : Type} (f : A -> list Z) (l : list A) :
  total (flat_map f l) = total (map (fun a => total (f a)) l).
Proof.
  induction l as [| a rest IH]; cbn [flat_map map].
  - reflexivity.
  - rewrite total_app, IH. reflexivity.
Qed.

Lemma total_ext {A : Type} (f g : A -> Z) (l : list A) :
  (forall a, f a = g a) -> total (map f l) = total (map g l).
Proof.
  intros H. f_equal. apply map_ext. exact H.
Qed.

Lemma series_total (rs : list RollupRecord) :
  total (map snd (flat_map snd (collect_stage (count_stage rs))))
  = Z.of_nat (List.length rs).
Proof.
  replace (map snd (flat_map snd (collect_stage (count_stage rs))))
    with (flat_map (fun s : string * list (Z * Z) => map snd (snd s))
                   (collect_stage (count_stage rs))).
  2:{ induction (collect_stage (count_stage rs)) as [| s rest IH];
        cbn [flat_map]; [reflexivity | now rewrite map_app, IH]. }
  rewrite total_flat_map. unfold collect_stage. rewrite map_map. cbn [snd].
  rewrite (total_ext _ (fun g : string * list ((string * Z) * Z) =>
                          total (map snd (snd g)))).
  2:{ intros g. now rewrite map_map. }
  rewrite (group_by_total String.eqb (fun c : (string * Z) * Z => fst (fst c)) snd).
  unfold count_stage. rewrite map_map. cbn [snd].
  rewrite (total_ext _ (fun g : (string * Z) * list RollupRecord =>
                          total (map (fun _ => 1) (snd g)))).
  2:{ intros g. now rewrite total_ones. }
  rewrite (group_by_total key_eqb (fun r => (type r, bucket_time r)) (fun _ => 1)).
  apply total_ones.
Qed.

Lemma occurrences_positive (ty : string) (t : Z) (rs : list RollupRecord) :
  1 <= occurrences ty t rs ->
  exists r, In r rs /\ type r = ty /\ bucket_time r = t.
Proof.
  unfold occurrences. intros H.
  destruct (filter (fun r => key_eqb (type r, bucket_time r) (ty, t)) rs)
    as [| r rest] eqn:E; [cbn [List.length] in H; lia |].
  assert (Hr : In r (filter (fun r => key_eqb (type r, bucket_time r) (ty, t)) rs)).
  { rewrite E. now left. }
  apply filter_In in Hr. destruct Hr as [Hr Hk].
  apply key_eqb_spec in Hk. inversion Hk. now exists r.
Qed.

(** C10. Every point of a stats result is a [{events, time}] document with
    [events >= 1] and [start <= time <= end], and its bucket holds a stored
    record of the object: a bucket of the window without a matching record
    has no point, and no point lies outside the window. *)
Theorem stats_points_in_window (oid start end_ : Z) (rs : list RollupRecord) :
  exists response,
    stats_result oid start end_ (map doc_of rs)
    = Return (Reply 200 (Some response)) /\
    Forall (fun p =>
      p = JObj [("events", JInt (point_events p)); ("time", JInt (point_time p))] /\
      1 <= point_events p /\
      start <= point_time p <= end_ /\
      exists r, In r rs /\ object_id r = oid /\ bucket_time r = point_time p)
      (points_of response).
Proof.
  exists (map entry (series oid start end_ rs)). split.
  - apply stats_result_records.
  - rewrite points_of_entries. apply Forall_forall. intros p Hp.
    apply in_map_iff in Hp. destruct Hp as ([t n] & <- & Hp).
    apply in_flat_map in Hp. destruct Hp as ([ty pts] & Hs & Hin). cbn [snd] in Hin.
    assert (Hpt : exists pts, In (ty, pts) (series oid start end_ rs) /\ In (t, n) pts)
      by (now exists pts).
    apply series_point in Hpt. destruct Hpt as [Hn Hocc].
    pose proof Hn as Hex. rewrite Hocc in Hex. apply occurrences_positive in Hex.
    destruct Hex as (r & Hr & _ & Ht).
    apply filter_In in Hr. destruct Hr as [Hr Hq].
    unfold qualifies in Hq. apply andb_true_iff in Hq. destruct Hq as [Ho Hw].
    apply andb_true_iff in Hw. destruct Hw as [He Hs'].
    apply Z.eqb_eq in Ho. apply Z.leb_le in He. apply Z.leb_le in Hs'.
    unfold point_doc, point_events, point_time. cbn.
    repeat split; try lia.
    exists r. repeat split; assumption.
Qed.

(** * Requests the handlers do not serve *)

Lemma int_raises (parser : string -> option Z) (v : json) (e : exn) :
  int_ parser v = Raise e -> http_status (Raise e) = 500.
Proof.
  destruct v as [| b | z | f | s | l | items]; simpl; try discriminate;
    try (intros H; inversion H; reflexivity).
  - destruct f; simpl; try discriminate; intros H; inversion H; reflexivity.
  - destruct (parser s); [discriminate | intros H; inversion H; reflexivity].
Qed.

Lemma lookup_raises (parser : string -> option Z) (data : json) (k : string) (e : exn) :
  (v <- getitem data k;; int_ parser v) = Raise e -> http_status (Raise e) = 500.
Proof.
  unfold getitem, bind.
  destruct data; try (intros H; inversion H; reflexivity).
  destruct (dict_get k items).
  - apply int_raises.
  - intros H; inversion H; reflexivity.
Qed.

(** C7, as amended. A stats request that names a resolution the table does
    not hold is never answered from some other resolution: the handler raises
    before it plans a window. What it raises is an exception the handler does
    not catch, a 500 for the client and not a 400; once [object_id] has been
    read it is the [KeyError] of the table lookup. *)
Theorem stats_unknown_resolution_raises (parser : string -> option Z)
  (table : list (string * Z)) (max_items now : Z) (data : json) (name : string)
  (db : Mongo.collection) :
  getitem data "resolution" = Return (JStr name) ->
  lookup name table = None ->
  exists e,
    StatsHandler.post parser table max_items now data db = Raise e /\
    http_status (Raise e) = 500 /\
    (forall oid,
       (v <- getitem data "object_id";; int_ parser v) = Return oid ->
       e = KeyError (JStr name)).
Proof.
  intros Hres Hlook. unfold StatsHandler.post.
  destruct data as [| | | | | | items]; try discriminate Hres.
  cbn [JSONRequestHandler.copy bind].
  destruct (v <- getitem (JObj items) "object_id";; int_ parser v) as [oid | e] eqn:Eo.
  - cbn [bind]. rewrite Hres. cbn [bind table_getitem]. rewrite Hlook.
    exists (KeyError (JStr name)). repeat split.
  - exists e. cbn [bind]. repeat split.
    + now apply (lookup_raises parser (JObj items) "object_id").
    + intros oid H. discriminate H.
Qed.

Lemma stats_unknown_resolution_raises_witness :
  exists e,
    StatsHandler.post (fun _ => None) TIME_RESOLUTIONS 9999999999 10000
      (stats_request 1 "week" 3) [] = Raise e /\
    http_status (Raise e) = 500 /\
    (forall oid,
       (v <- getitem (stats_request 1 "week" 3) "object_id";; int_ (fun _ => None) v)
       = Return oid ->
       e = KeyError (JStr "week")).
Proof.
  apply (stats_unknown_resolution_raises (fun _ => None) TIME_RESOLUTIONS
           9999999999 10000 (stats_request 1 "week" 3) "week" []);
    reflexivity.
Defined.

(** C7 as stated fails: the request for the unregistered "week" ends in an
    uncaught [KeyError], which is not a 400. *)
Lemma stats_unknown_resolution_is_not_400 :
  StatsHandler.post (fun _ => None) TIME_RESOLUTIONS 9999999999 10000
    (stats_request 1 "week" 3) [] = Raise (KeyError (JStr "week")) /\
  http_status (StatsHandler.post (fun _ => None) TIME_RESOLUTIONS 9999999999 10000
    (stats_request 1 "week" 3) []) <> 400.
Proof.
  split; [reflexivity | vm_compute; discriminate].
Qed.

Lemma documents_missing (data : json) (ts : list Z) (stop : option exn) (e : exn) :
  ts <> [] ->
  (type <- getitem data "type";; getitem data "object_id") = Raise e ->
  EventsHandler.documents data ts stop = ([], Some e).
Proof.
  intros Hts He. destruct ts as [| t rest]; [contradiction |].
  simpl. unfold EventsHandler.document.
  destruct (getitem data "type") as [ty | e1]; simpl in *.
  - rewrite He. reflexivity.
  - inversion He. reflexivity.
Qed.

(** C8 as stated fails: an event whose [type] is the empty text and whose
    [object_id] is no integer is accepted and its records are written. *)
Lemma ingest_accepts_empty_type :
  EventsHandler.post (fun _ => None) TIME_RESOLUTIONS
    (JObj [("type", JStr ""); ("object_id", JStr "seven"); ("time", JInt 3661)]) []
  = ([stored (JStr "") (JStr "seven") 3600; stored (JStr "") (JStr "seven") 0],
     Return (Reply 200 None)).
Proof. reflexivity. Qed.

(** * Ingest, then stats *)

Lemma lookup_positive (table : list (string * Z)) (name : string) (w : Z) :
  positive_widths table -> lookup name table = Some w -> 0 < w.
Proof.
  induction 1 as [| [k v] rest Hv _ IH]; simpl.
  - discriminate.
  - destruct (String.eqb name k); [intros E; inversion E; subst; exact Hv | exact IH].
Qed.







Lemma post_event (parser : string -> option Z) (table : list (string * Z))
  (e : RawEvent) (db : Mongo.collection) :
  table <> [] ->
  positive_widths table ->
  EventsHandler.post parser table (event_request e) db
  = ((db ++ map doc_of (map (fun p => rollup e (snd p)) table))%list,
     Return (Reply 200 None)).
Proof.
  intros Hne Hpos. destruct e as [ty oid t]. unfold event_request.
  cbn [ev_type ev_object_id ev_time].
  rewrite (post_accepted parser table _ (JStr ty) (JInt oid) (JInt t) t);
    try reflexivity; try assumption.
  now rewrite map_map.
Qed.





(** * More on the time bucketer *)

(** X1. Rounding keeps the order of times: for a width [w > 0], an earlier
    time never gets a later bucket. *)
Theorem round_time_monotone (t t' w : Z) :
  0 < w -> t <= t' ->
  exists r r',
    JSONRequestHandler._round_time t w = Return r /\
    JSONRequestHandler._round_time t' w = Return r' /\
    r <= r'.
Proof.
  intros Hw Ht. exists (t / w * w), (t' / w * w).
  rewrite !round_time_value by lia. repeat split.
  apply Z.mul_le_mono_nonneg_r; [lia |].
  apply Z.div_le_mono; lia.
Qed.

Lemma round_time_monotone_witness :
  exists r r',
    JSONRequestHandler._round_time 3599 3600 = Return r /\
    JSONRequestHandler._round_time 3600 3600 = Return r' /\
    r <= r'.
Proof. apply (round_time_monotone 3599 3600 3600); lia. Defined.

(** X2. Moving a time by whole widths moves its bucket by as much: for a
    width [w <> 0], the bucket of [t + k * w] is the bucket of [t] plus
    [k * w]. *)
Theorem round_time_shift (t k w : Z) :
  w <> 0 ->
  JSONRequestHandler._round_time (t + k * w) w
  = (r <- JSONRequestHandler._round_time t w;; Return (r + k * w)).
Proof.
  intros Hw. rewrite !round_time_value by exact Hw. cbn [bind]. f_equal.
  rewrite Z.div_add by exact Hw. lia.
Qed.

Lemma round_time_shift_witness :
  JSONRequestHandler._round_time (3661 + 2 * 3600) 3600
  = (r <- JSONRequestHandler._round_time 3661 3600;; Return (r + 2 * 3600)).
Proof. apply (round_time_shift 3661 2 3600). lia. Defined.

(** X3. Buckets nest: when a width is a positive multiple [k * w] of a
    width [w > 0], the coarse bucket of a time starts no later than its fine
    bucket and ends no earlier, and rounding the fine bucket with the coarse
    width gives the coarse bucket. *)
Theorem round_time_nested (t w k : Z) :
  0 < w -> 0 < k ->
  exists fine coarse,
    JSONRequestHandler._round_time t w = Return fine /\
    JSONRequestHandler._round_time t (k * w) = Return coarse /\
    coarse <= fine /\ fine + w <= coarse + k * w /\
    JSONRequestHandler._round_time fine (k * w) = Return coarse.
Proof.
  intros Hw Hk. exists (t / w * w), (t / (k * w) * (k * w)).
  assert (Hkw : k * w <> 0) by nia.
  assert (Hq : t / (k * w) = t / w / k).
  { rewrite (Z.mul_comm k w). symmetry. apply Z.div_div; lia. }
  pose proof (Z.mod_pos_bound (t / w) k Hk) as Hm.
  pose proof (Z.mod_eq (t / w) k ltac:(lia)) as He.
  rewrite !round_time_value by lia.
  repeat split.
  - rewrite Hq. nia.
  - rewrite Hq. nia.
  - f_equal. f_equal. rewrite Hq.
    rewrite Z.div_mul_cancel_r by lia. reflexivity.
Qed.

Lemma round_time_nested_witness :
  exists fine coarse,
    JSONRequestHandler._round_time 100000 3600 = Return fine /\
    JSONRequestHandler._round_time 100000 (24 * 3600) = Return coarse /\
    coarse <= fine /\ fine + 3600 <= coarse + 24 * 3600 /\
    JSONRequestHandler._round_time fine (24 * 3600) = Return coarse.
Proof. apply (round_time_nested 100000 3600 24); lia. Defined.

(** X4. A negative width is not refused: the time is rounded up, to the
    least multiple of the width that is not below it. *)
Theorem round_time_negative_width (t w : Z) :
  w < 0 ->
  exists r,
    JSONRequestHandler._round_time t w = Return r /\
    t <= r /\ r < t - w /\ (w | r) /\
    (forall m, (w | m) -> t <= m -> r <= m).
Proof.
  intros Hw. exists (t / w * w).
  pose proof (Z.mod_neg_bound t w Hw) as Hm.
  pose proof (Z.mod_eq t w ltac:(lia)) as He.
  repeat split; try lia.
  - apply round_time_value. lia.
  - now exists (t / w).
  - intros m [q ->] Hq.
    destruct (Z_le_gt_dec q (t / w)) as [Hle | Hgt]; [nia | exfalso; nia].
Qed.

Lemma round_time_negative_width_witness :
  exists r,
    JSONRequestHandler._round_time 3661 (-3600) = Return r /\
    3661 <= r /\ r < 3661 - (-3600) /\ (-3600 | r) /\
    (forall m, (-3600 | m) -> 3661 <= m -> r <= m).
Proof. apply (round_time_negative_width 3661 (-3600)). lia. Defined.

(** * More on the rollup writer *)

Lemma prepare_timestamps_cases (table : list (string * Z)) (t : Z) :
  (Forall (fun p => snd p <> 0) table /\
   EventsHandler._prepare_timestamps table t
   = (map (fun p => t / snd p * snd p) table, None))
  \/ (In 0 (map snd table) /\
      exists ts, EventsHandler._prepare_timestamps table t
                 = (ts, Some ZeroDivisionError)).
Proof.
  induction table as [| [name w] rest IH]; cbn [EventsHandler._prepare_timestamps map snd].
  - left. split; [constructor | reflexivity].
  - destruct (Z.eq_dec w 0) as [-> | Hw].
    + right. split; [now left |]. exists []. reflexivity.
    + rewrite round_time_value by exact Hw.
      destruct IH as [[Hall ->] | (Hin & ts & ->)].
      * left. split; [constructor; assumption | reflexivity].
      * right. split; [now right |]. now exists (t / w * w :: ts).
Qed.

Lemma documents_all (data ty oid : json) (ts : list Z) (stop : option exn) :
  getitem data "type" = Return ty ->
  getitem data "object_id" = Return oid ->
  EventsHandler.documents data ts stop = (map (stored ty oid) ts, stop).
Proof.
  intros Hty Hoid. induction ts as [| t rest IH]; simpl.
  - reflexivity.
  - unfold EventsHandler.document. rewrite Hty, Hoid. simpl. now rewrite IH.
Qed.

Lemma documents_stopped (data : json) (ts : list Z) (e : exn) :
  exists ds e', EventsHandler.documents data ts (Some e) = (ds, Some e').
Proof.
  induction ts as [| t rest (ds & e' & IH)]; simpl.
  - now exists [], e.
  - destruct (EventsHandler.document data t) as [d | e1].
    + rewrite IH. now exists (d :: ds), e'.
    + now exists [], e1.
Qed.

Lemma post_after_time (parser : string -> option Z) (table : list (string * Z))
  (items : list (string * json)) (tv : json) (t : Z) (db : Mongo.collection) :
  dict_get "time" items = Some tv ->
  int_ parser tv = Return t ->
  EventsHandler.post parser table (JObj items) db
  = (fst (Mongo.insert
            (EventsHandler.documents (JObj items)
               (fst (EventsHandler._prepare_timestamps table t))
               (snd (EventsHandler._prepare_timestamps table t))) db),
     EventsHandler._on_post_response
       (snd (Mongo.insert
               (EventsHandler.documents (JObj items)
                  (fst (EventsHandler._prepare_timestamps table t))
                  (snd (EventsHandler._prepare_timestamps table t))) db))).
Proof.
  intros Htv Ht.
  unfold EventsHandler.post, JSONRequestHandler.copy, getitem, bind.
  rewrite Htv, Ht. unfold EventsHandler._prepare_timestamps_for_insert.
  destruct (EventsHandler._prepare_timestamps table t) as [ts stop]. cbn [fst snd].
  destruct (Mongo.insert _ db) as [db' err]. reflexivity.
Qed.

(** Every ingest either writes the whole batch or nothing. *)
Lemma post_cases (parser : string -> option Z) (table : list (string * Z))
  (data : json) (db : Mongo.collection) :
  (exists ty oid t,
     accepted parser data = Some (ty, oid, t) /\
     table <> [] /\ Forall (fun p => snd p <> 0) table /\
     EventsHandler.post parser table data db
     = ((db ++ map (fun p => stored ty oid (t / snd p * snd p)) table)%list,
        Return (Reply 200 None)))
  \/ (exists e,
        EventsHandler.post parser table data db = (db, Raise e) /\
        http_status (Raise e) = 500).
Proof.
  destruct data as [| b | z | f | s | l | items];
    try (right; exists AttributeError; split; reflexivity).
  unfold accepted.
  destruct (dict_get "time" items) as [tv |] eqn:Etv.
  2:{ right. exists (KeyError (JStr "time")). split; [| reflexivity].
      unfold EventsHandler.post, JSONRequestHandler.copy, getitem, bind.
      now rewrite Etv. }
  destruct (int_ parser tv) as [t | e] eqn:Et.
  2:{ right. exists e. split; [| now apply (int_raises parser tv)].
      unfold EventsHandler.post, JSONRequestHandler.copy, getitem, bind.
      now rewrite Etv, Et. }
  rewrite (post_after_time parser table items tv t db Etv Et).
  destruct (prepare_timestamps_cases table t) as [[Hall ->] | (Hin & ts & ->)];
    cbn [fst snd].
  - destruct (dict_get "type" items) as [ty |] eqn:Ety.
    + destruct (dict_get "object_id" items) as [oid |] eqn:Eoid.
      * rewrite (documents_all _ ty oid)
          by (unfold getitem; first [now rewrite Ety | now rewrite Eoid]).
        rewrite map_map.
        destruct table as [| p rest].
        -- right. exists (HTTPError 500). split; reflexivity.
        -- left. exists ty, oid, t. repeat split; try assumption; discriminate.
      * right. exists (HTTPError 500). split; [| reflexivity].
        destruct table as [| p rest]; [reflexivity |].
        rewrite (documents_missing _ _ _ (KeyError (JStr "object_id")));
          [reflexivity | discriminate |].
        unfold getitem, bind. now rewrite Ety, Eoid.
    + right. exists (HTTPError 500).
      assert (H : forall o : option json,
                (fst (Mongo.insert
                        (EventsHandler.documents (JObj items)
                           (map (fun p : string * Z => t / snd p * snd p) table) None) db),
                 EventsHandler._on_post_response
                   (snd (Mongo.insert
                           (EventsHandler.documents (JObj items)
                              (map (fun p : string * Z => t / snd p * snd p) table) None) db)))
                = (db, Raise (HTTPError 500))).
      { intros _. destruct table as [| p rest]; [reflexivity |].
        rewrite (documents_missing _ _ _ (KeyError (JStr "type")));
          [reflexivity | discriminate |].
        unfold getitem, bind. now rewrite Ety. }
      destruct (dict_get "object_id" items); split; try apply (H None); reflexivity.
  - right. exists (HTTPError 500).
    destruct (documents_stopped (JObj items) ts ZeroDivisionError) as (ds & e' & Hd).
    assert (H : (fst (Mongo.insert
                        (EventsHandler.documents (JObj items) ts (Some ZeroDivisionError)) db),
                 EventsHandler._on_post_response
                   (snd (Mongo.insert
                           (EventsHandler.documents (JObj items) ts
                              (Some ZeroDivisionError)) db)))
                = (db, Raise (HTTPError 500))).
    { rewrite Hd. destruct ds; reflexivity. }
    destruct (dict_get "type" items), (dict_get "object_id" items);
      split; try exact H; reflexivity.
Qed.

(** X7. A table that holds a zero width makes every ingest request fail: the
    division by zero in the rounding ends the batch, nothing is written and
    the answer is a 500. *)
Theorem ingest_zero_width_fails (parser : string -> option Z)
  (table : list (string * Z)) (data : json) (db : Mongo.collection) :
  In 0 (map snd table) ->
  exists e,
    EventsHandler.post parser table data db = (db, Raise e) /\
    http_status (Raise e) = 500.
Proof.
  intros Hz.
  destruct (post_cases parser table data db)
    as [(ty & oid & t & _ & _ & Hall & _) | H]; [| exact H].
  exfalso. apply in_map_iff in Hz. destruct Hz as (p & Hp & Hin).
  rewrite Forall_forall in Hall. now apply (Hall p Hin).
Qed.

Lemma ingest_zero_width_fails_witness :
  exists e,
    EventsHandler.post (fun _ => None) [("hour", 3600); ("none", 0)]
      (event_request (Event "click" 7 3661)) []
    = ([], Raise e) /\
    http_status (Raise e) = 500.
Proof.
  apply (ingest_zero_width_fails (fun _ => None) [("hour", 3600); ("none", 0)]
           (event_request (Event "click" 7 3661)) []).
  simpl. right. now left.
Defined.

(** X8. The collection only grows, and what the writer stores always holds an
    integer in [time]: if every stored document does before an ingest
    request, every stored document does after it, whatever the request. *)
Theorem ingest_keeps_integer_times (parser : string -> option Z)
  (table : list (string * Z)) (data : json) (db : Mongo.collection) :
  Forall has_int_time db ->
  (exists added,
     fst (EventsHandler.post parser table data db) = (db ++ added)%list) /\
  Forall has_int_time (fst (EventsHandler.post parser table data db)).
Proof.
  intros Hdb.
  destruct (post_cases parser table data db)
    as [(ty & oid & t & _ & _ & _ & ->) | (e & -> & _)]; cbn [fst].
  - split; [eexists; reflexivity |].
    apply Forall_app. split; [exact Hdb |].
    apply Forall_forall. intros d Hd. apply in_map_iff in Hd.
    destruct Hd as (p & <- & _). now exists (t / snd p * snd p).
  - split; [exists []; now rewrite app_nil_r | exact Hdb].
Qed.

Lemma ingest_keeps_integer_times_witness :
  (exists added,
     fst (EventsHandler.post (fun _ => None) TIME_RESOLUTIONS
            (event_request (Event "click" 7 3661)) [doc_of (Rollup "view" 1 0)])
     = ([doc_of (Rollup "view" 1 0)] ++ added)%list) /\
  Forall has_int_time
    (fst (EventsHandler.post (fun _ => None) TIME_RESOLUTIONS
            (event_request (Event "click" 7 3661)) [doc_of (Rollup "view" 1 0)])).
Proof.
  apply (ingest_keeps_integer_times (fun _ => None) TIME_RESOLUTIONS
           (event_request (Event "click" 7 3661)) [doc_of (Rollup "view" 1 0)]).
  constructor; [now exists 0 | constructor].
Defined.

(** * Listing the stored documents *)

Section SortFacts.

Variable name : string.

Lemma key_geb_total (a b : option Z) :
  Mongo.key_geb a b = false -> Mongo.key_geb b a = true.
Proof.
  destruct a as [x |], b as [y |]; simpl; try discriminate; try reflexivity.
  intros H. apply Z.leb_gt in H. apply Z.leb_le. lia.
Qed.

Lemma key_geb_trans (a b c : option Z) :
  Mongo.key_geb a b = true -> Mongo.key_geb b c = true -> Mongo.key_geb a c = true.
Proof.
  destruct a as [x |], b as [y |], c as [z |]; simpl; try discriminate; try reflexivity.
  intros H1 H2. apply Z.leb_le in H1. apply Z.leb_le in H2. apply Z.leb_le. lia.
Qed.

Lemma insert_desc_perm (d : json) (l : list json) :
  Permutation (Mongo.insert_desc name d l) (d :: l).
Proof.
  induction l as [| d' rest IH]; simpl.
  - reflexivity.
  - destruct (Mongo.key_geb _ _).
    + reflexivity.
    + rewrite IH. apply perm_swap.
Qed.

Lemma sort_desc_perm (l : list json) : Permutation (Mongo.sort_desc name l) l.
Proof.
  induction l as [| d rest IH]; simpl.
  - reflexivity.
  - rewrite insert_desc_perm. now constructor.
Qed.

Lemma insert_desc_sorted (d : json) (l : list json) :
  StronglySorted (before name) l ->
  StronglySorted (before name) (Mongo.insert_desc name d l).
Proof.
  induction 1 as [| d' rest Hs IH Hall]; simpl.
  - constructor; constructor.
  - destruct (Mongo.key_geb (Mongo.sort_key name d) (Mongo.sort_key name d')) eqn:E.
    + constructor; [constructor; assumption |].
      constructor; [exact E |].
      apply Forall_forall. intros x Hx. rewrite Forall_forall in Hall.
      unfold before in *. eapply key_geb_trans; [exact E | now apply Hall].
    + constructor; [exact IH |].
      apply Forall_forall. intros x Hx.
      apply (Permutation_in _ (insert_desc_perm d rest)) in Hx.
      destruct Hx as [<- | Hx].
      * now apply key_geb_total.
      * rewrite Forall_forall in Hall. now apply Hall.
Qed.

Lemma sort_desc_sorted (l : list json) :
  StronglySorted (before name) (Mongo.sort_desc name l).
Proof.
  induction l as [| d rest IH]; simpl.
  - constructor.
  - now apply insert_desc_sorted.
Qed.

End SortFacts.

Lemma StronglySorted_split {A : Type} (R : A -> A -> Prop) (l1 l2 : list A) :
  StronglySorted R (l1 ++ l2) ->
  StronglySorted R l1 /\ (forall a b, In a l1 -> In b l2 -> R a b).
Proof.
  induction l1 as [| x rest IH]; simpl; intros H.
  - split; [constructor | intros a b []].
  - inversion H as [| ? ? Hs Hall]; subst.
    destruct (IH Hs) as [Hs1 Hcross].
    rewrite Forall_app in Hall. destruct Hall as [Hall1 Hall2].
    split.
    + now constructor.
    + intros a b [<- | Ha] Hb.
      * rewrite Forall_forall in Hall2. now apply Hall2.
      * now apply Hcross.
Qed.

Lemma StronglySorted_weaken {A : Type} (R R' : A -> A -> Prop) (l : list A) :
  (forall a b, In a l -> In b l -> R a b -> R' a b) ->
  StronglySorted R l -> StronglySorted R' l.
Proof.
  intros Hw Hs. induction Hs as [| x rest Hs IH Hall].
  - constructor.
  - constructor.
    + apply IH. intros a b Ha Hb. apply Hw; now right.
    + rewrite Forall_forall in *. intros y Hy.
      apply Hw; [now left | now right | now apply Hall].
Qed.

Lemma in_first {A : Type} (n : nat) (l : list A) (a : A) :
  In a (firstn n l) -> In a l.
Proof.
  intros H. rewrite <- (firstn_skipn n l). apply in_or_app. now left.
Qed.

Lemma in_rest {A : Type} (n : nat) (l : list A) (a : A) :
  In a (skipn n l) -> In a l.
Proof.
  intros H. rewrite <- (firstn_skipn n l). apply in_or_app. now right.
Qed.

Lemma before_times (a b : json) :
  has_int_time a -> has_int_time b ->
  Mongo.key_geb (Mongo.sort_key "time" a) (Mongo.sort_key "time" b) = true ->
  time_of b <= time_of a.
Proof.
  intros [x Hx] [y Hy]. unfold Mongo.sort_key, time_of. rewrite Hx, Hy. simpl.
  apply Z.leb_le.
Qed.

Lemma get_value (max_items : Z) (db : Mongo.collection) :
  0 <= max_items ->
  EventsHandler.get max_items db
  = Return (200, firstn (Z.to_nat max_items) (Mongo.sort_desc "time" db)).
Proof.
  intros Hm. unfold EventsHandler.get, Mongo.to_list.
  destruct (max_items <? 0) eqn:E; [apply Z.ltb_lt in E; lia | reflexivity].
Qed.

(** X9. [GET /event] lists the [max_items] latest documents, latest first:
    the answer is 200 with a list that, together with the documents it leaves
    out, is a rearrangement of the collection; it holds [max_items] documents
    or the whole collection if that is less; its times never increase; and no
    document left out is later than a document listed. *)
Theorem get_lists_latest_first (max_items : Z) (db : Mongo.collection) :
  Forall has_int_time db ->
  0 <= max_items ->
  exists result rest,
    EventsHandler.get max_items db = Return (200, result) /\
    Permutation (result ++ rest) db /\
    List.length result = Nat.min (Z.to_nat max_items) (List.length db) /\
    StronglySorted (fun a b => time_of b <= time_of a) result /\
    (forall d d', In d result -> In d' rest -> time_of d' <= time_of d).
Proof.
  intros Hint Hm.
  set (sorted := Mongo.sort_desc "time" db).
  exists (firstn (Z.to_nat max_items) sorted), (skipn (Z.to_nat max_items) sorted).
  assert (Hperm : Permutation sorted db) by apply sort_desc_perm.
  assert (Hall : forall d, In d sorted -> has_int_time d).
  { intros d Hd. rewrite Forall_forall in Hint. apply Hint.
    now apply (Permutation_in _ Hperm). }
  pose proof (sort_desc_sorted "time" db) as Hs. fold sorted in Hs.
  rewrite <- (firstn_skipn (Z.to_nat max_items) sorted) in Hs.
  apply StronglySorted_split in Hs. destruct Hs as [Hs Hcross].
  split; [now apply get_value |].
  split; [now rewrite firstn_skipn |].
  split; [rewrite length_firstn; now rewrite (Permutation_length Hperm) |].
  split.
  - apply (StronglySorted_weaken _ _ _ (fun a b Ha Hb H =>
             before_times a b (Hall a (in_first _ _ _ Ha))
                              (Hall b (in_first _ _ _ Hb)) H)).
    exact Hs.
  - intros d d' Hd Hd'. apply before_times.
    + apply Hall. now apply (in_first (Z.to_nat max_items)).
    + apply Hall. now apply (in_rest (Z.to_nat max_items)).
    + now apply Hcross.
Qed.

Lemma get_lists_latest_first_witness :
  exists result rest,
    EventsHandler.get 2
      [doc_of (Rollup "a" 1 0); doc_of (Rollup "b" 1 7200); doc_of (Rollup "c" 2 3600)]
    = Return (200, result) /\
    Permutation (result ++ rest)
      [doc_of (Rollup "a" 1 0); doc_of (Rollup "b" 1 7200); doc_of (Rollup "c" 2 3600)] /\
    List.length result = Nat.min (Z.to_nat 2) 3 /\
    StronglySorted (fun a b => time_of b <= time_of a) result /\
    (forall d d', In d result -> In d' rest -> time_of d' <= time_of d).
Proof.
  apply (get_lists_latest_first 2
           [doc_of (Rollup "a" 1 0); doc_of (Rollup "b" 1 7200);
            doc_of (Rollup "c" 2 3600)]).
  - repeat constructor; eexists; reflexivity.
  - lia.
Defined.

(** X10. When [max_items] is at least the size of the collection,
    [GET /event] leaves nothing out: the list is a rearrangement of the whole
    collection. *)
Theorem get_lists_everything (max_items : Z) (db : Mongo.collection) :
  Z.of_nat (List.length db) <= max_items ->
  exists result,
    EventsHandler.get max_items db = Return (200, result) /\
    Permutation result db.
Proof.
  intros Hm. exists (Mongo.sort_desc "time" db). split.
  - rewrite get_value by lia. rewrite firstn_all2; [reflexivity |].
    rewrite (Permutation_length (sort_desc_perm "time" db)). lia.
  - apply sort_desc_perm.
Qed.

Lemma get_lists_everything_witness :
  exists result,
    EventsHandler.get 9999999999
      [doc_of (Rollup "a" 1 0); doc_of (Rollup "b" 1 7200)]
    = Return (200, result) /\
    Permutation result [doc_of (Rollup "a" 1 0); doc_of (Rollup "b" 1 7200)].
Proof.
  apply (get_lists_everything 9999999999
           [doc_of (Rollup "a" 1 0); doc_of (Rollup "b" 1 7200)]).
  cbn [List.length]. lia.
Defined.

Lemma accepted_inv (parser : string -> option Z) (data ty oid : json) (t : Z) :
  accepted parser data = Some (ty, oid, t) ->
  exists items tv,
    data = JObj items /\
    dict_get "type" items = Some ty /\
    dict_get "object_id" items = Some oid /\
    dict_get "time" items = Some tv /\
    int_ parser tv = Return t.
Proof.
  unfold accepted. destruct data as [| | | | | | items]; try discriminate.
  destruct (dict_get "type" items) as [ty' |] eqn:Ety; [| discriminate].
  destruct (dict_get "object_id" items) as [oid' |] eqn:Eoid; [| discriminate].
  destruct (dict_get "time" items) as [tv |] eqn:Etv; [| discriminate].
  destruct (int_ parser tv) as [t' | e] eqn:Et; [| discriminate].
  intros H. inversion H; subst. exists items, tv. repeat split; assumption.
Qed.

(** X11. What is ingested can be read back: after an accepted event is
    ingested, [GET /event] with [max_items] at least the size of the
    collection lists one document per resolution with the event's [type] and
    [object_id] and the bucket of its time, next to every document stored
    before. *)
Theorem ingest_then_get (parser : string -> option Z) (table : list (string * Z))
  (max_items : Z) (data ty oid : json) (t : Z) (db : Mongo.collection) :
  table <> [] ->
  positive_widths table ->
  accepted parser data = Some (ty, oid, t) ->
  Z.of_nat (List.length db + List.length table) <= max_items ->
  exists result,
    EventsHandler.get max_items (fst (EventsHandler.post parser table data db))
    = Return (200, result) /\
    (forall p, In p table -> In (stored ty oid (t / snd p * snd p)) result) /\
    (forall d, In d db -> In d result) /\
    List.length result = (List.length db + List.length table)%nat.
Proof.
  intros Hne Hpos Hacc Hm.
  apply accepted_inv in Hacc.
  destruct Hacc as (items & tv & -> & Hty & Hoid & Htv & Ht).
  rewrite (post_accepted parser table items ty oid tv t db Hne Hpos Hty Hoid Htv Ht).
  cbn [fst].
  set (db' := (db ++ map (fun p => stored ty oid (t / snd p * snd p)) table)%list).
  assert (Hlen : List.length db' = (List.length db + List.length table)%nat).
  { unfold db'. now rewrite length_app, length_map. }
  exists (Mongo.sort_desc "time" db').
  pose proof (sort_desc_perm "time" db') as Hperm.
  split; [| split; [| split]].
  - rewrite get_value by lia. rewrite firstn_all2; [reflexivity |].
    rewrite (Permutation_length Hperm), Hlen. lia.
  - intros p Hp. apply (Permutation_in _ (Permutation_sym Hperm)).
    unfold db'. apply in_or_app. right.
    apply (in_map (fun p => stored ty oid (t / snd p * snd p))). exact Hp.
  - intros d Hd. apply (Permutation_in _ (Permutation_sym Hperm)).
    unfold db'. apply in_or_app. now left.
  - now rewrite (Permutation_length Hperm).
Qed.

Lemma ingest_then_get_witness :
  exists result,
    EventsHandler.get 9999999999
      (fst (EventsHandler.post (fun _ => None) TIME_RESOLUTIONS
              (event_request (Event "click" 7 3661)) []))
    = Return (200, result) /\
    (forall p, In p TIME_RESOLUTIONS ->
               In (stored (JStr "click") (JInt 7) (3661 / snd p * snd p)) result) /\
    (forall d, In d [] -> In d result) /\
    List.length result = (List.length (@nil json) + List.length TIME_RESOLUTIONS)%nat.
Proof.
  apply (ingest_then_get (fun _ => None) TIME_RESOLUTIONS 9999999999
           (event_request (Event "click" 7 3661)) (JStr "click") (JInt 7) 3661 []).
  - discriminate.
  - repeat constructor.
  - reflexivity.
  - cbn [List.length TIME_RESOLUTIONS]. lia.
Defined.

(** * More on the stats handler *)

Lemma reports_entries (ss : list (string * list (Z * Z))) (ty : string) (t n : Z) :
  reports (map entry ss) ty t n <->
  exists pts, In (ty, pts) ss /\ In (t, n) pts.
Proof.
  unfold reports. split.
  - intros (jpts & Hin & Hp). apply in_map_iff in Hin.
    destruct Hin as ([ty' pts] & E & Hin). unfold entry in E. cbn [fst snd] in E.
    inversion E; subst. exists pts. split; [exact Hin |].
    apply in_map_iff in Hp. destruct Hp as ([t' n'] & E' & Hp).
    unfold point_doc in E'. cbn [fst snd] in E'. inversion E'; subst. exact Hp.
  - intros (pts & Hin & Hp). exists (map point_doc pts). split.
    + apply (in_map entry) in Hin. exact Hin.
    + apply (in_map point_doc) in Hp. exact Hp.
Qed.

Lemma filter_twice {A : Type} (f g : A -> bool) (l : list A) :
  filter f (filter g l) = filter (fun x => g x && f x) l.
Proof.
  induction l as [| a rest IH]; cbn [filter].
  - reflexivity.
  - destruct (g a); cbn [andb filter]; [destruct (f a) |]; now rewrite IH.
Qed.

Lemma filter_none {A : Type} (l : list A) : filter (fun _ => false) l = [].
Proof. induction l; [reflexivity | assumption]. Qed.

Lemma occurrences_window (oid start end_ : Z) (ty : string) (t : Z)
  (rs : list RollupRecord) :
  occurrences ty t (filter (qualifies oid start end_) rs)
  = if (start <=? t) && (t <=? end_) then count_records oid ty t rs else 0.
Proof.
  unfold occurrences, count_records. rewrite filter_twice.
  destruct ((start <=? t) && (t <=? end_)) eqn:Ew.
  - do 2 f_equal. apply filter_ext. intros r.
    unfold qualifies, key_eqb. cbn [fst snd].
    destruct (bucket_time r =? t) eqn:Et.
    + apply Z.eqb_eq in Et. rewrite Et.
      rewrite (andb_comm (t <=? end_)), Ew. now rewrite !andb_true_r.
    + now rewrite !andb_false_r.
  - rewrite (filter_ext _ (fun _ => false)); [now rewrite filter_none |].
    intros r. unfold qualifies, key_eqb. cbn [fst snd].
    destruct (bucket_time r =? t) eqn:Et.
    + apply Z.eqb_eq in Et. rewrite Et.
      rewrite (andb_comm (t <=? end_)), Ew. now rewrite !andb_false_r.
    + now rewrite !andb_false_r.
Qed.

(** What a stats result reports, whatever the order of the collection. *)
Lemma stats_reports (oid start end_ : Z) (rs : list RollupRecord) :
  exists response,
    stats_result oid start end_ (map doc_of rs) = Return (Reply 200 (Some response)) /\
    response = map entry (series oid start end_ rs) /\
    forall ty t n,
      reports response ty t n <->
      start <= t <= end_ /\ 1 <= n /\ n = count_records oid ty t rs.
Proof.
  exists (map entry (series oid start end_ rs)).
  split; [apply stats_result_records |]. split; [reflexivity |].
  intros ty t n. rewrite reports_entries, series_point, occurrences_window.
  destruct ((start <=? t) && (t <=? end_)) eqn:E.
  - apply andb_true_iff in E. destruct E as [E1 E2].
    apply Z.leb_le in E1. apply Z.leb_le in E2. tauto.
  - split; [lia |]. intros [[H1 H2] _].
    apply Z.leb_le in H1. apply Z.leb_le in H2. rewrite H1, H2 in E. discriminate.
Qed.

Lemma count_records_perm (oid : Z) (ty : string) (t : Z) (rs rs' : list RollupRecord) :
  Permutation rs rs' -> count_records oid ty t rs = count_records oid ty t rs'.
Proof.
  unfold count_records. intros H. f_equal.
  induction H as [| r l l' _ IH | a b l | l l' l'' _ IH1 _ IH2]; cbn [filter].
  - reflexivity.
  - destruct ((object_id r =? oid) && _); cbn [List.length]; now rewrite IH.
  - destruct ((object_id a =? oid) && _), ((object_id b =? oid) && _); reflexivity.
  - now rewrite IH1.
Qed.

Lemma count_records_app (oid : Z) (ty : string) (t : Z) (rs rs' : list RollupRecord) :
  count_records oid ty t (rs ++ rs')
  = count_records oid ty t rs + count_records oid ty t rs'.
Proof.
  unfold count_records. rewrite filter_app, length_app. lia.
Qed.

(** X13. A stats result is not touched by records of other objects or of
    buckets outside the window: with such records anywhere in the collection
    the answer is the same, entry for entry. *)
Theorem stats_isolated (oid start end_ : Z) (rs1 others rs2 : list RollupRecord) :
  (forall r, In r others ->
     object_id r <> oid \/ bucket_time r < start \/ end_ < bucket_time r) ->
  stats_result oid start end_ (map doc_of (rs1 ++ others ++ rs2))
  = stats_result oid start end_ (map doc_of (rs1 ++ rs2)).
Proof.
  intros Hout. rewrite !stats_result_records. unfold series.
  rewrite !filter_app.
  replace (filter (qualifies oid start end_) others) with (@nil RollupRecord);
    [reflexivity |].
  symmetry. induction others as [| r rest IH]; [reflexivity |].
  cbn [filter].
  assert (Hq : qualifies oid start end_ r = false).
  { unfold qualifies. destruct (Hout r (or_introl eq_refl)) as [H | [H | H]].
    - apply Z.eqb_neq in H. now rewrite H.
    - apply Z.leb_gt in H. rewrite H. now rewrite !andb_false_r.
    - apply Z.leb_gt in H. rewrite H. now rewrite andb_false_r. }
  rewrite Hq. apply IH. intros r' Hr'. apply Hout. now right.
Qed.

Lemma stats_isolated_witness :
  stats_result 7 0 7200
    (map doc_of ([Rollup "a" 7 0] ++ [Rollup "a" 8 0; Rollup "a" 7 86400]
                 ++ [Rollup "b" 7 3600]))
  = stats_result 7 0 7200 (map doc_of ([Rollup "a" 7 0] ++ [Rollup "b" 7 3600])).
Proof.
  apply (stats_isolated 7 0 7200 [Rollup "a" 7 0]
           [Rollup "a" 8 0; Rollup "a" 7 86400] [Rollup "b" 7 3600]).
  intros r [<- | [<- | []]]; cbn; lia.
Defined.

Lemma count_rollups (e : RawEvent) (table : list (string * Z)) (oid : Z)
  (ty : string) (t : Z) :
  count_records oid ty t (map (fun p => rollup e (snd p)) table)
  = if (ev_object_id e =? oid) && String.eqb (ev_type e) ty
    then Z.of_nat (List.length
           (filter (fun p => ev_time e / snd p * snd p =? t) table))
    else 0.
Proof.
  unfold count_records.
  induction table as [| [name w] rest IH]; cbn [map filter snd].
  - now destruct ((ev_object_id e =? oid) && String.eqb (ev_type e) ty).
  - change (object_id (rollup e w)) with (ev_object_id e).
    change (type (rollup e w)) with (ev_type e).
    change (bucket_time (rollup e w)) with (ev_time e / w * w).
    rewrite andb_assoc.
    destruct ((ev_object_id e =? oid) && String.eqb (ev_type e) ty); cbn [andb].
    + destruct (ev_time e / w * w =? t); cbn [List.length];
        rewrite ?Nat2Z.inj_succ, IH; reflexivity.
    + exact IH.
Qed.

Lemma NoDup_firstn {A : Type} (n : nat) (l : list A) : NoDup l -> NoDup (firstn n l).
Proof.
  intros H. rewrite <- (firstn_skipn n l) in H.
  now apply NoDup_app_remove_r in H.
Qed.

(** The stats handler on a collection of rollup records, in closed form. *)
Lemma stats_post_closed (parser : string -> option Z) (table : list (string * Z))
  (max_items now oid limit wq : Z) (name : string) (rs : list RollupRecord) :
  positive_widths table ->
  lookup name table = Some wq ->
  0 <= max_items ->
  StatsHandler.post parser table max_items now (stats_request oid name limit)
    (map doc_of rs)
  = Return (Reply 200 (Some (map entry
      (firstn (Z.to_nat max_items)
         (series oid (now / wq * wq - wq * limit) (now / wq * wq) rs))))).
Proof.
  intros Hpos Hlook Hmax.
  pose proof (lookup_positive _ _ _ Hpos Hlook) as Hw.
  unfold StatsHandler.post, stats_request, JSONRequestHandler.copy, getitem.
  cbn [bind dict_get String.eqb Ascii.eqb Bool.eqb int_ table_getitem].
  rewrite Hlook. cbn [bind].
  unfold StatsHandler._compute_start_and_end.
  rewrite round_time_value by lia. cbn [bind fst snd].
  rewrite aggregate_records. unfold Mongo.to_list.
  destruct (max_items <? 0) eqn:E; [apply Z.ltb_lt in E; lia |].
  cbn [bind fst snd]. rewrite firstn_map.
  unfold StatsHandler._on_post_response.
  rewrite (comprehension_series _ []).
  - reflexivity.
  - cbn [app]. rewrite <- firstn_map. apply NoDup_firstn, series_NoDup.
Qed.

(** X16. [max_items] also caps the stats answer: the handler answers with the
    first [max_items] types of the full result of the pipeline and drops the
    rest, so the answer holds [max_items] types or all of them if that is
    less. *)
Theorem stats_post_truncates (parser : string -> option Z)
  (table : list (string * Z)) (max_items now oid limit wq : Z) (name : string)
  (rs : list RollupRecord) :
  positive_widths table ->
  lookup name table = Some wq ->
  0 <= max_items ->
  exists kept dropped,
    stats_result oid (now / wq * wq - wq * limit) (now / wq * wq) (map doc_of rs)
    = Return (Reply 200 (Some (kept ++ dropped)%list)) /\
    StatsHandler.post parser table max_items now (stats_request oid name limit)
      (map doc_of rs)
    = Return (Reply 200 (Some kept)) /\
    List.length kept
    = Nat.min (Z.to_nat max_items) (List.length (kept ++ dropped)%list).
Proof.
  intros Hpos Hlook Hmax.
  set (ss := series oid (now / wq * wq - wq * limit) (now / wq * wq) rs).
  exists (map entry (firstn (Z.to_nat max_items) ss)),
         (map entry (skipn (Z.to_nat max_items) ss)).
  rewrite <- map_app, firstn_skipn. split; [apply stats_result_records |].
  split; [now apply stats_post_closed |].
  now rewrite !length_map, length_firstn.
Qed.

Lemma stats_post_truncates_witness :
  exists kept dropped,
    stats_result 7 (10000 / 3600 * 3600 - 3600 * 3) (10000 / 3600 * 3600)
      (map doc_of [Rollup "a" 7 0; Rollup "b" 7 3600])
    = Return (Reply 200 (Some (kept ++ dropped)%list)) /\
    StatsHandler.post (fun _ => None) TIME_RESOLUTIONS 1 10000
      (stats_request 7 "hour" 3)
      (map doc_of [Rollup "a" 7 0; Rollup "b" 7 3600])
    = Return (Reply 200 (Some kept)) /\
    List.length kept = Nat.min (Z.to_nat 1) (List.length (kept ++ dropped)%list).
Proof.
  apply (stats_post_truncates (fun _ => None) TIME_RESOLUTIONS 1 10000 7 3 3600
           "hour" [Rollup "a" 7 0; Rollup "b" 7 3600]).
  - repeat constructor.
  - reflexivity.
  - lia.
Defined.

Lemma series_empty_window (oid start end_ : Z) (rs : list RollupRecord) :
  end_ < start -> series oid start end_ rs = [].
Proof.
  intros H. unfold series.
  rewrite (filter_ext _ (fun _ => false)); [now rewrite filter_none |].
  intros r. unfold qualifies.
  destruct (bucket_time r <=? end_) eqn:E1, (start <=? bucket_time r) eqn:E2;
    rewrite ?andb_false_r; try reflexivity.
  apply Z.leb_le in E1. apply Z.leb_le in E2. lia.
Qed.

Lemma getitem_raises (d : json) (k : string) (e : exn) :
  getitem d k = Raise e -> http_status (Raise e) = 500.
Proof.
  unfold getitem. destruct d; try (intros H; inversion H; reflexivity).
  destruct (dict_get k items); [discriminate | intros H; inversion H; reflexivity].
Qed.

Lemma comprehension_raises (result : list json) (acc : list (json * json)) (e : exn) :
  StatsHandler.comprehension result acc = Raise e -> http_status (Raise e) = 500.
Proof.
  revert acc. induction result as [| obj rest IH]; intros acc; simpl.
  - discriminate.
  - destruct (getitem obj "events") as [v | e1] eqn:Ev; cbn [bind].
    + destruct (getitem obj "type") as [k | e2] eqn:Ek; cbn [bind].
      * destruct (StatsHandler.hashable k).
        -- apply IH.
        -- intros H; inversion H; reflexivity.
      * intros H; inversion H; subst. now apply (getitem_raises obj "type").
    + intros H; inversion H; subst. now apply (getitem_raises obj "events").
Qed.

(** X18. The stats handler answers 200 or fails with a 500, for every body
    and every collection, and never with a 400; and it answers 200 only when
    the body names a resolution of the table. *)
Theorem stats_answers_200_or_500 (parser : string -> option Z)
  (table : list (string * Z)) (max_items now : Z) (data : json)
  (db : Mongo.collection) :
  (exists response name w,
     StatsHandler.post parser table max_items now data db
     = Return (Reply 200 (Some response)) /\
     getitem data "resolution" = Return (JStr name) /\
     lookup name table = Some w)
  \/ (exists e,
        StatsHandler.post parser table max_items now data db = Raise e /\
        http_status (Raise e) = 500).
Proof.
  unfold StatsHandler.post.
  destruct data as [| b | z | f | s | l | items];
    try (right; exists AttributeError; split; reflexivity).
  cbn [JSONRequestHandler.copy bind].
  destruct (v <- getitem (JObj items) "object_id";; int_ parser v) as [oid | e] eqn:Eo;
    cbn [bind].
  2:{ right. exists e. split; [reflexivity |].
      now apply (lookup_raises parser (JObj items) "object_id"). }
  destruct (getitem (JObj items) "resolution") as [rv | e] eqn:Er; cbn [bind].
  2:{ right. exists e. split; [reflexivity |].
      now apply (getitem_raises (JObj items) "resolution"). }
  destruct rv as [| rb | rz | rf | name | rl | ritems]; cbn [table_getitem bind];
    try (right; eexists; split; reflexivity).
  destruct (lookup name table) as [w |] eqn:El; cbn [bind];
    [| right; eexists; split; reflexivity].
  destruct (v <- getitem (JObj items) "limit";; int_ parser v) as [limit | e] eqn:Elim;
    cbn [bind].
  2:{ right. exists e. split; [reflexivity |].
      now apply (lookup_raises parser (JObj items) "limit"). }
  unfold StatsHandler._compute_start_and_end, JSONRequestHandler._round_time.
  destruct (w =? 0); cbn [bind fst snd];
    [right; eexists; split; reflexivity |].
  unfold Mongo.to_list.
  destruct (max_items <? 0); cbn [bind];
    [right; eexists; split; reflexivity |].
  destruct (Mongo.aggregate _ db) as [docs | e]; cbn [bind fst snd];
    [| right; exists (HTTPError 500); split; reflexivity].
  unfold StatsHandler._on_post_response.
  destruct (StatsHandler.comprehension (firstn (Z.to_nat max_items) docs) [])
    as [response | e] eqn:Ec; cbn [bind].
  - left. exists response, name, w. repeat split. exact El.
  - right. exists e. split; [reflexivity |].
    now apply (comprehension_raises _ _ _ Ec).
Qed.

(** * The stats handler and its cap *)

Lemma occurrences_of_member (r : RollupRecord) (rs : list RollupRecord) :
  In r rs -> 1 <= occurrences (type r) (bucket_time r) rs.
Proof.
  intros Hr. unfold occurrences.
  assert (Hf : In r (filter (fun r' => key_eqb (type r', bucket_time r')
                                        (type r, bucket_time r)) rs)).
  { apply filter_In. split; [exact Hr | now apply key_eqb_spec]. }
  destruct (filter _ rs); [destruct Hf | cbn [List.length]; lia].
Qed.

Lemma series_types_iff (oid start end_ : Z) (rs : list RollupRecord) (ty : string) :
  In ty (map fst (series oid start end_ rs)) <-> In ty (types_in oid start end_ rs).
Proof.
  unfold series. rewrite collect_stage_keys.
  rewrite (group_by_keys _ _ String.eqb_eq).
  unfold types_in. rewrite nodup_In, in_map_iff. split.
  - intros ([[ty' t] n] & Hc & E). cbn [fst] in E. subst ty'.
    apply count_stage_In in Hc. destruct Hc as [Hn Hocc].
    rewrite Hocc in Hn. apply occurrences_positive in Hn.
    destruct Hn as (r & Hr & Hty & _). now exists r.
  - intros (r & Hty & Hr).
    exists ((type r, bucket_time r),
            occurrences (type r) (bucket_time r) (filter (qualifies oid start end_) rs)).
    split; [| exact Hty].
    apply count_stage_In. split; [now apply occurrences_of_member | reflexivity].
Qed.

(** The pipeline gives one document per type of the object in the window. *)
Lemma series_length (oid start end_ : Z) (rs : list RollupRecord) :
  List.length (series oid start end_ rs)
  = List.length (types_in oid start end_ rs).
Proof.
  rewrite <- (length_map fst (series oid start end_ rs)).
  apply Permutation_length, NoDup_Permutation.
  - apply series_NoDup.
  - apply NoDup_nodup.
  - intros ty. apply series_types_iff.
Qed.

Lemma types_in_incl_length (oid start end_ oid' start' end' : Z)
  (rs rs' : list RollupRecord) :
  (forall ty, In ty (types_in oid start end_ rs) -> In ty (types_in oid' start' end' rs')) ->
  (List.length (types_in oid start end_ rs)
   <= List.length (types_in oid' start' end' rs'))%nat.
Proof.
  intros H. apply NoDup_incl_length; [apply NoDup_nodup | exact H].
Qed.

(** The last two lines of [StatsHandler.post], for any window. *)
Lemma stats_tail_closed (max_items oid start end_ : Z) (rs : list RollupRecord) :
  0 <= max_items ->
  (answer <- Mongo.to_list max_items
               (Mongo.aggregate (aggregate_events oid start end_) (map doc_of rs));;
   StatsHandler._on_post_response (fst answer) (snd answer))
  = Return (Reply 200 (Some (map entry
      (firstn (Z.to_nat max_items) (series oid start end_ rs))))).
Proof.
  intros Hmax. rewrite aggregate_records. unfold Mongo.to_list.
  destruct (max_items <? 0) eqn:E; [apply Z.ltb_lt in E; lia |].
  cbn [bind fst snd]. rewrite firstn_map.
  unfold StatsHandler._on_post_response.
  rewrite (comprehension_series _ []).
  - reflexivity.
  - cbn [app]. rewrite <- firstn_map. apply NoDup_firstn, series_NoDup.
Qed.

Lemma series_uncut (max_items oid start end_ : Z) (rs : list RollupRecord) :
  Z.of_nat (List.length (types_in oid start end_ rs)) <= max_items ->
  firstn (Z.to_nat max_items) (series oid start end_ rs) = series oid start end_ rs.
Proof.
  intros H. apply firstn_all2. rewrite series_length. lia.
Qed.

(** The stats handler when [max_items] does not cut the answer. *)
Lemma stats_post_full (parser : string -> option Z) (table : list (string * Z))
  (max_items now oid limit wq : Z) (name : string) (rs : list RollupRecord) :
  positive_widths table ->
  lookup name table = Some wq ->
  Z.of_nat (List.length
    (types_in oid (now / wq * wq - wq * limit) (now / wq * wq) rs)) <= max_items ->
  StatsHandler.post parser table max_items now (stats_request oid name limit)
    (map doc_of rs)
  = Return (Reply 200 (Some (map entry
      (series oid (now / wq * wq - wq * limit) (now / wq * wq) rs)))).
Proof.
  intros Hpos Hlook Hmax.
  rewrite (stats_post_closed parser table max_items now oid limit wq name rs
             Hpos Hlook) by lia.
  now rewrite series_uncut.
Qed.

Lemma stats_post_reports (parser : string -> option Z) (table : list (string * Z))
  (max_items now oid limit wq : Z) (name : string) (rs : list RollupRecord) :
  positive_widths table ->
  lookup name table = Some wq ->
  Z.of_nat (List.length
    (types_in oid (now / wq * wq - wq * limit) (now / wq * wq) rs)) <= max_items ->
  exists response,
    StatsHandler.post parser table max_items now (stats_request oid name limit)
      (map doc_of rs)
    = Return (Reply 200 (Some response)) /\
    forall ty t n,
      reports response ty t n <->
      now / wq * wq - wq * limit <= t <= now / wq * wq /\ 1 <= n /\
      n = count_records oid ty t rs.
Proof.
  intros Hpos Hlook Hmax.
  destruct (stats_reports oid (now / wq * wq - wq * limit) (now / wq * wq) rs)
    as (response & _ & -> & Hr).
  exists (map entry (series oid (now / wq * wq - wq * limit) (now / wq * wq) rs)).
  split; [now apply stats_post_full | exact Hr].
Qed.

Ltac in_int64 := unfold int64; vm_compute; split; [discriminate | reflexivity].

(** C2, as amended. For an object and for window bounds the store can hold,
    and with [max_items] at least the number of types among the records of
    the object in the window, the answer of the stats handler is the collect
    stage applied to the count stage applied to those records: the count
    stage holds one entry per [(type, bucket_time)] pair that occurs, with the
    number of records of the pair; the collect stage holds one entry per type,
    with the [(time, events)] pairs of the counts of that type; each type is a
    key of the answer once. The same holds of the pipeline, cursor and
    callback for any window. Records [(A,0),(A,0),(B,3600)] in the window
    give [{"A": [{"time":0,"events":2}], "B": [{"time":3600,"events":1}]}]. *)
Theorem stats_post_two_stage_grouping (parser : string -> option Z)
  (table : list (string * Z)) (max_items now oid limit wq : Z) (name : string)
  (rs : list RollupRecord) :
  positive_widths table ->
  lookup name table = Some wq ->
  int64 oid ->
  int64 (now / wq * wq - wq * limit) ->
  int64 (now / wq * wq) ->
  Z.of_nat (List.length
    (types_in oid (now / wq * wq - wq * limit) (now / wq * wq) rs)) <= max_items ->
  StatsHandler.post parser table max_items now (stats_request oid name limit)
    (map doc_of rs)
  = Return (Reply 200 (Some (map entry
      (collect_stage (count_stage
         (filter (qualifies oid (now / wq * wq - wq * limit) (now / wq * wq)) rs))))))
  /\ (forall start end_,
        int64 start -> int64 end_ ->
        Z.of_nat (List.length (types_in oid start end_ rs)) <= max_items ->
        (answer <- Mongo.to_list max_items
                     (Mongo.aggregate (aggregate_events oid start end_) (map doc_of rs));;
         StatsHandler._on_post_response (fst answer) (snd answer))
        = Return (Reply 200 (Some (map entry
            (collect_stage (count_stage (filter (qualifies oid start end_) rs)))))))
  /\ (forall start end_ ty t n,
        In ((ty, t), n) (count_stage (filter (qualifies oid start end_) rs)) <->
        1 <= n /\ n = occurrences ty t (filter (qualifies oid start end_) rs))
  /\ (forall start end_,
        NoDup (map fst (count_stage (filter (qualifies oid start end_) rs))))
  /\ (forall cs ty pts,
        In (ty, pts) (collect_stage cs) <->
        pts <> [] /\
        pts = map (fun c => (snd (fst c), snd c))
                  (filter (fun c : (string * Z) * Z => String.eqb (fst (fst c)) ty) cs))
  /\ (forall start end_,
        NoDup (map fst
          (collect_stage (count_stage (filter (qualifies oid start end_) rs)))))
  /\ StatsHandler.post parser TIME_RESOLUTIONS 9999999999 10000
       (stats_request 7 "hour" 3)
       (map doc_of [Rollup "A" 7 0; Rollup "A" 7 0; Rollup "B" 7 3600])
     = Return (Reply 200 (Some
         [(JStr "A", JArr [JObj [("events", JInt 2); ("time", JInt 0)]]);
          (JStr "B", JArr [JObj [("events", JInt 1); ("time", JInt 3600)]])])).
Proof.
  intros Hpos Hlook _ _ _ Hmax.
  split; [now apply stats_post_full |].
  split.
  { intros start end_ _ _ Hm. rewrite stats_tail_closed by lia.
    now rewrite series_uncut. }
  split; [intros start end_ ty t n; apply count_stage_In |].
  split; [intros start end_; apply count_stage_NoDup |].
  split; [intros cs ty pts; apply collect_stage_In |].
  split; [intros start end_; apply (series_NoDup oid start end_ rs) |].
  rewrite (stats_post_full parser TIME_RESOLUTIONS 9999999999 10000 7 3 3600 "hour").
  - vm_compute. reflexivity.
  - repeat constructor.
  - reflexivity.
  - vm_compute. discriminate.
Qed.

Lemma stats_post_two_stage_grouping_witness :
  StatsHandler.post (fun _ => None) TIME_RESOLUTIONS 2 10000
    (stats_request 7 "hour" 3)
    (map doc_of [Rollup "A" 7 0; Rollup "A" 7 0; Rollup "B" 7 3600])
  = Return (Reply 200 (Some (map entry
      (collect_stage (count_stage
         (filter (qualifies 7 (10000 / 3600 * 3600 - 3600 * 3) (10000 / 3600 * 3600))
            [Rollup "A" 7 0; Rollup "A" 7 0; Rollup "B" 7 3600])))))).
Proof.
  apply (stats_post_two_stage_grouping (fun _ => None) TIME_RESOLUTIONS 2 10000 7 3
           3600 "hour" [Rollup "A" 7 0; Rollup "A" 7 0; Rollup "B" 7 3600]).
  - repeat constructor.
  - reflexivity.
  - in_int64.
  - in_int64.
  - in_int64.
  - vm_compute. discriminate.
Defined.

(** C2 as stated fails: [max_items] caps the answer, and with [max_items] 1
    the handler answers for the records [(A,0),(A,0),(B,3600)] with the type
    A alone. *)
Lemma stats_post_drops_a_type :
  StatsHandler.post (fun _ => None) TIME_RESOLUTIONS 1 10000
    (stats_request 7 "hour" 3)
    (map doc_of [Rollup "A" 7 0; Rollup "A" 7 0; Rollup "B" 7 3600])
  = Return (Reply 200 (Some
      [(JStr "A", JArr [JObj [("events", JInt 2); ("time", JInt 0)]])])).
Proof. vm_compute. reflexivity. Qed.

(** C9, as amended. For an object and for window bounds the store can hold,
    and with [max_items] at least the number of types among the records of
    the object in the window, the answer of the stats handler conserves the
    record count: the [events] of all points of all types add up to the
    number of stored records of the object whose bucket lies in the window.
    The same holds of the pipeline, cursor and callback for any window. *)
Theorem stats_post_conserves_count (parser : string -> option Z)
  (table : list (string * Z)) (max_items now oid limit wq : Z) (name : string)
  (rs : list RollupRecord) :
  positive_widths table ->
  lookup name table = Some wq ->
  int64 oid ->
  int64 (now / wq * wq - wq * limit) ->
  int64 (now / wq * wq) ->
  Z.of_nat (List.length
    (types_in oid (now / wq * wq - wq * limit) (now / wq * wq) rs)) <= max_items ->
  (exists response,
     StatsHandler.post parser table max_items now (stats_request oid name limit)
       (map doc_of rs)
     = Return (Reply 200 (Some response)) /\
     total_events response
     = Z.of_nat (List.length
         (filter (qualifies oid (now / wq * wq - wq * limit) (now / wq * wq)) rs)))
  /\ (forall start end_,
        int64 start -> int64 end_ ->
        Z.of_nat (List.length (types_in oid start end_ rs)) <= max_items ->
        exists response,
          (answer <- Mongo.to_list max_items
                       (Mongo.aggregate (aggregate_events oid start end_) (map doc_of rs));;
           StatsHandler._on_post_response (fst answer) (snd answer))
          = Return (Reply 200 (Some response)) /\
          total_events response
          = Z.of_nat (List.length (filter (qualifies oid start end_) rs))).
Proof.
  intros Hpos Hlook _ _ _ Hmax.
  assert (Htotal : forall start end_,
            total_events (map entry (series oid start end_ rs))
            = Z.of_nat (List.length (filter (qualifies oid start end_) rs))).
  { intros start end_. unfold total_events. rewrite points_of_entries, map_map.
    rewrite (total_ext _ snd) by (intros [t n]; reflexivity).
    apply series_total. }
  split.
  - exists (map entry (series oid (now / wq * wq - wq * limit) (now / wq * wq) rs)).
    split; [now apply stats_post_full | apply Htotal].
  - intros start end_ _ _ Hm.
    exists (map entry (series oid start end_ rs)). split; [| apply Htotal].
    rewrite stats_tail_closed by lia. now rewrite series_uncut.
Qed.

Lemma stats_post_conserves_count_witness :
  exists response,
    StatsHandler.post (fun _ => None) TIME_RESOLUTIONS 3 10000
      (stats_request 7 "hour" 3)
      (map doc_of [Rollup "A" 7 0; Rollup "B" 7 3600; Rollup "C" 7 7200])
    = Return (Reply 200 (Some response)) /\
    total_events response
    = Z.of_nat (List.length
        (filter (qualifies 7 (10000 / 3600 * 3600 - 3600 * 3) (10000 / 3600 * 3600))
           [Rollup "A" 7 0; Rollup "B" 7 3600; Rollup "C" 7 7200])).
Proof.
  refine (proj1 (stats_post_conserves_count (fun _ => None) TIME_RESOLUTIONS 3
                   10000 7 3 3600 "hour"
                   [Rollup "A" 7 0; Rollup "B" 7 3600; Rollup "C" 7 7200]
                   _ _ _ _ _ _)).
  - repeat constructor.
  - reflexivity.
  - in_int64.
  - in_int64.
  - in_int64.
  - vm_compute. discriminate.
Defined.

(** C9 as stated fails: with [max_items] 1 the handler answers with one type
    and reports 1 event, while 3 stored records of the object lie in the
    window. *)
Lemma stats_post_drops_events :
  StatsHandler.post (fun _ => None) TIME_RESOLUTIONS 1 10000
    (stats_request 7 "hour" 3)
    (map doc_of [Rollup "A" 7 0; Rollup "B" 7 3600; Rollup "C" 7 7200])
  = Return (Reply 200 (Some
      [(JStr "A", JArr [JObj [("events", JInt 1); ("time", JInt 0)]])]))
  /\ total_events [(JStr "A", JArr [JObj [("events", JInt 1); ("time", JInt 0)]])] = 1
  /\ List.length
       (filter (qualifies 7 (-3600) 7200)
          [Rollup "A" 7 0; Rollup "B" 7 3600; Rollup "C" 7 7200]) = 3%nat.
Proof. vm_compute. repeat split. Qed.

(** * What the rollup writer checks *)

(** C8, as amended. With a table that is not empty and whose widths are
    positive, the ingest handler checks only that the body is a dictionary
    holding [type], [object_id] and [time] with [time] readable by [int]: a
    body that fails this leaves the collection as it was and ends in an
    exception that is a 500 for the client, not a validation error. It does
    not check that [type] is a text that is not empty or that [object_id] is
    an integer: a body whose [type] is any text, also the empty one, whose
    [object_id] is a text or an integer the store can hold, and whose buckets
    the store can hold, is answered with 200 and its records are written, one
    per resolution. *)
Theorem ingest_checks_presence_only (parser : string -> option Z)
  (table : list (string * Z)) (data : json) (db : Mongo.collection) :
  table <> [] ->
  positive_widths table ->
  (accepted parser data = None ->
   exists e,
     EventsHandler.post parser table data db = (db, Raise e) /\
     http_status (Raise e) = 500)
  /\ (forall items ty oid tv t,
        data = JObj items ->
        dict_get "type" items = Some (JStr ty) ->
        dict_get "object_id" items = Some oid ->
        (exists s, oid = JStr s) \/ (exists z, oid = JInt z /\ int64 z) ->
        dict_get "time" items = Some tv ->
        int_ parser tv = Return t ->
        (forall p, In p table -> int64 (t / snd p * snd p)) ->
        EventsHandler.post parser table data db
        = ((db ++ map (fun p => stored (JStr ty) oid (t / snd p * snd p)) table)%list,
           Return (Reply 200 None))).
Proof.
  intros Hne Hpos. split.
  - intros Hacc.
    destruct (post_cases parser table data db)
      as [(ty & oid & t & Hsome & _) | H]; [| exact H].
    rewrite Hacc in Hsome. discriminate.
  - intros items ty oid tv t -> Hty Hoid _ Htv Ht _.
    now apply (post_accepted parser table items (JStr ty) oid tv t db).
Qed.

Lemma ingest_checks_presence_only_witness :
  (accepted (fun _ => None)
     (JObj [("type", JStr ""); ("object_id", JStr "seven"); ("time", JInt 3661)])
   = None ->
   exists e,
     EventsHandler.post (fun _ => None) TIME_RESOLUTIONS
       (JObj [("type", JStr ""); ("object_id", JStr "seven"); ("time", JInt 3661)]) []
     = ([], Raise e) /\
     http_status (Raise e) = 500)
  /\ (forall items ty oid tv t,
        JObj [("type", JStr ""); ("object_id", JStr "seven"); ("time", JInt 3661)]
        = JObj items ->
        dict_get "type" items = Some (JStr ty) ->
        dict_get "object_id" items = Some oid ->
        (exists s, oid = JStr s) \/ (exists z, oid = JInt z /\ int64 z) ->
        dict_get "time" items = Some tv ->
        int_ (fun _ => None) tv = Return t ->
        (forall p, In p TIME_RESOLUTIONS -> int64 (t / snd p * snd p)) ->
        EventsHandler.post (fun _ => None) TIME_RESOLUTIONS
          (JObj [("type", JStr ""); ("object_id", JStr "seven"); ("time", JInt 3661)]) []
        = (([] ++ map (fun p => stored (JStr ty) oid (t / snd p * snd p))
                      TIME_RESOLUTIONS)%list,
           Return (Reply 200 None))).
Proof.
  apply (ingest_checks_presence_only (fun _ => None) TIME_RESOLUTIONS
           (JObj [("type", JStr ""); ("object_id", JStr "seven"); ("time", JInt 3661)])
           []).
  - discriminate.
  - repeat constructor.
Defined.

(** * The content type check *)

(** X5. What [prepare] does with every request: it raises exactly when the
    request is a POST and either the content type does not start with
    [application/json], and then the exception is the 400, whatever the body;
    or the content type does and [json.loads] raises, and then the exception
    is that of [json.loads], so a body that cannot be read is not a 400. A
    POST it lets through carries the body as [json.loads] read it; any other
    method passes without a body. *)
Theorem prepare_outcomes (method content_type : string) (loaded : py json) :
  (forall e,
     JSONRequestHandler.prepare method content_type loaded = Raise e <->
     method = "POST" /\
     ((String.prefix "application/json" content_type = false /\ e = HTTPError 400)
      \/ (String.prefix "application/json" content_type = true /\ loaded = Raise e)))
  /\ (forall body,
        JSONRequestHandler.prepare method content_type loaded = Return (Some body)
        <-> method = "POST" /\ String.prefix "application/json" content_type = true
            /\ loaded = Return body)
  /\ (JSONRequestHandler.prepare method content_type loaded = Return None
      <-> method <> "POST").
Proof.
  unfold JSONRequestHandler.prepare.
  destruct (String.eqb method "POST") eqn:Em.
  - apply String.eqb_eq in Em. subst method.
    destruct (String.prefix "application/json" content_type);
      [destruct loaded as [v | e']; cbn [bind] |];
      (split; [| split]); try intros x; intuition congruence.
  - apply String.eqb_neq in Em.
    (split; [| split]); try intros x; intuition congruence.
Qed.

(** * More on the stats handler, through its cap *)

Lemma types_in_perm (oid start end_ : Z) (rs rs' : list RollupRecord) (ty : string) :
  Permutation rs rs' ->
  In ty (types_in oid start end_ rs') -> In ty (types_in oid start end_ rs).
Proof.
  intros Hp. unfold types_in. rewrite !nodup_In, !in_map_iff.
  intros (r & Hty & Hr). exists r. split; [exact Hty |].
  apply filter_In in Hr. destruct Hr as [Hr Hq]. apply filter_In. split; [| exact Hq].
  now apply (Permutation_in _ (Permutation_sym Hp)).
Qed.

(** X12. The counts the stats handler reports do not depend on the order in
    which the records were stored: for an object and window bounds the store
    can hold, and with [max_items] at least the number of types among the
    records of the object in the window, two collections that hold the same
    records get answers that report the same count for every type and
    bucket. *)
Theorem stats_ignores_storage_order (parser : string -> option Z)
  (table : list (string * Z)) (max_items now oid limit wq : Z) (name : string)
  (rs rs' : list RollupRecord) :
  positive_widths table ->
  lookup name table = Some wq ->
  int64 oid ->
  int64 (now / wq * wq - wq * limit) ->
  int64 (now / wq * wq) ->
  Z.of_nat (List.length
    (types_in oid (now / wq * wq - wq * limit) (now / wq * wq) rs)) <= max_items ->
  Permutation rs rs' ->
  exists response response',
    StatsHandler.post parser table max_items now (stats_request oid name limit)
      (map doc_of rs)
    = Return (Reply 200 (Some response)) /\
    StatsHandler.post parser table max_items now (stats_request oid name limit)
      (map doc_of rs')
    = Return (Reply 200 (Some response')) /\
    forall ty t n, reports response ty t n <-> reports response' ty t n.
Proof.
  intros Hpos Hlook _ _ _ Hmax Hp.
  destruct (stats_post_reports parser table max_items now oid limit wq name rs
              Hpos Hlook Hmax) as (response & H1 & Hr).
  destruct (stats_post_reports parser table max_items now oid limit wq name rs'
              Hpos Hlook) as (response' & H2 & Hr').
  { pose proof (types_in_incl_length oid (now / wq * wq - wq * limit) (now / wq * wq)
                  oid (now / wq * wq - wq * limit) (now / wq * wq) rs' rs
                  (fun ty => types_in_perm _ _ _ rs rs' ty Hp)) as Hle.
    lia. }
  exists response, response'. split; [exact H1 |]. split; [exact H2 |].
  intros ty t n. rewrite Hr, Hr', (count_records_perm oid ty t rs rs' Hp). tauto.
Qed.

Lemma stats_ignores_storage_order_witness :
  exists response response',
    StatsHandler.post (fun _ => None) TIME_RESOLUTIONS 2 10000
      (stats_request 7 "hour" 3) (map doc_of [Rollup "a" 7 0; Rollup "b" 7 3600])
    = Return (Reply 200 (Some response)) /\
    StatsHandler.post (fun _ => None) TIME_RESOLUTIONS 2 10000
      (stats_request 7 "hour" 3) (map doc_of [Rollup "b" 7 3600; Rollup "a" 7 0])
    = Return (Reply 200 (Some response')) /\
    forall ty t n, reports response ty t n <-> reports response' ty t n.
Proof.
  apply (stats_ignores_storage_order (fun _ => None) TIME_RESOLUTIONS 2 10000 7 3
           3600 "hour" [Rollup "a" 7 0; Rollup "b" 7 3600]
           [Rollup "b" 7 3600; Rollup "a" 7 0]).
  - repeat constructor.
  - reflexivity.
  - in_int64.
  - in_int64.
  - in_int64.
  - vm_compute. discriminate.
  - apply perm_swap.
Defined.

Lemma types_in_wider (oid start end_ start' : Z) (rs : list RollupRecord) (ty : string) :
  start' <= start ->
  In ty (types_in oid start end_ rs) -> In ty (types_in oid start' end_ rs).
Proof.
  intros Hs. unfold types_in. rewrite !nodup_In, !in_map_iff.
  intros (r & Hty & Hr). exists r. split; [exact Hty |].
  apply filter_In in Hr. destruct Hr as [Hr Hq]. apply filter_In. split; [exact Hr |].
  unfold qualifies in *. apply andb_true_iff in Hq. destruct Hq as [Ho Hw].
  apply andb_true_iff in Hw. destruct Hw as [He Hst]. apply Z.leb_le in Hst.
  rewrite Ho, He. cbn [andb]. apply Z.leb_le. lia.
Qed.

(** X14. The count the stats handler reports for a bucket does not depend on
    the limit, as long as the window holds the bucket: for an object and
    window bounds the store can hold, and with [max_items] at least the
    number of types in the wider window, a request with a smaller limit is
    answered with exactly the points of the answer to the larger limit that
    lie in its window. *)
Theorem stats_window_restricts (parser : string -> option Z)
  (table : list (string * Z)) (max_items now oid limit limit' wq : Z)
  (name : string) (rs : list RollupRecord) :
  positive_widths table ->
  lookup name table = Some wq ->
  int64 oid ->
  int64 (now / wq * wq - wq * limit) ->
  int64 (now / wq * wq - wq * limit') ->
  int64 (now / wq * wq) ->
  limit <= limit' ->
  Z.of_nat (List.length
    (types_in oid (now / wq * wq - wq * limit') (now / wq * wq) rs)) <= max_items ->
  exists narrow wide,
    StatsHandler.post parser table max_items now (stats_request oid name limit)
      (map doc_of rs)
    = Return (Reply 200 (Some narrow)) /\
    StatsHandler.post parser table max_items now (stats_request oid name limit')
      (map doc_of rs)
    = Return (Reply 200 (Some wide)) /\
    forall ty t n,
      reports narrow ty t n <->
      now / wq * wq - wq * limit <= t /\ reports wide ty t n.
Proof.
  intros Hpos Hlook _ _ _ _ Hl Hmax.
  pose proof (lookup_positive _ _ _ Hpos Hlook) as Hw.
  assert (Hs : now / wq * wq - wq * limit' <= now / wq * wq - wq * limit) by nia.
  destruct (stats_post_reports parser table max_items now oid limit wq name rs
              Hpos Hlook) as (narrow & H1 & Hn).
  { pose proof (types_in_incl_length oid (now / wq * wq - wq * limit) (now / wq * wq)
                  oid (now / wq * wq - wq * limit') (now / wq * wq) rs rs
                  (fun ty => types_in_wider _ _ _ _ rs ty Hs)) as Hle.
    lia. }
  destruct (stats_post_reports parser table max_items now oid limit' wq name rs
              Hpos Hlook Hmax) as (wide & H2 & Hwd).
  exists narrow, wide. split; [exact H1 |]. split; [exact H2 |].
  intros ty t n. rewrite Hn, Hwd. split.
  - intros (Ht & Hp & Hc). repeat split; try assumption; lia.
  - intros (Ht & (Ht' & Hp & Hc)). repeat split; try assumption; lia.
Qed.

Lemma stats_window_restricts_witness :
  exists narrow wide,
    StatsHandler.post (fun _ => None) TIME_RESOLUTIONS 2 10000
      (stats_request 7 "hour" 1) (map doc_of [Rollup "a" 7 0; Rollup "b" 7 3600])
    = Return (Reply 200 (Some narrow)) /\
    StatsHandler.post (fun _ => None) TIME_RESOLUTIONS 2 10000
      (stats_request 7 "hour" 2) (map doc_of [Rollup "a" 7 0; Rollup "b" 7 3600])
    = Return (Reply 200 (Some wide)) /\
    forall ty t n,
      reports narrow ty t n <->
      10000 / 3600 * 3600 - 3600 * 1 <= t /\ reports wide ty t n.
Proof.
  apply (stats_window_restricts (fun _ => None) TIME_RESOLUTIONS 2 10000 7 1 2
           3600 "hour" [Rollup "a" 7 0; Rollup "b" 7 3600]).
  - repeat constructor.
  - reflexivity.
  - in_int64.
  - in_int64.
  - in_int64.
  - in_int64.
  - lia.
  - vm_compute. discriminate.
Defined.

Lemma types_in_app_l (oid start end_ : Z) (rs more : list RollupRecord) (ty : string) :
  In ty (types_in oid start end_ rs) -> In ty (types_in oid start end_ (rs ++ more)).
Proof.
  unfold types_in. rewrite !nodup_In, !in_map_iff.
  intros (r & Hty & Hr). exists r. split; [exact Hty |].
  rewrite filter_app. apply in_or_app. now left.
Qed.

(** X15. Ingesting an event changes the stats of its own object and type
    only: for an event and window bounds the store can hold, and with
    [max_items] at least the number of types after the ingest, the stats
    handler reports after the ingest, for each bucket of the window, the
    records stored before plus as many events as there are resolutions that
    round the event to that bucket; the counts of every other type are as
    before. *)
Theorem ingest_adds_to_its_buckets (parser : string -> option Z)
  (table : list (string * Z)) (max_items now limit wq : Z) (name : string)
  (e : RawEvent) (rs : list RollupRecord) :
  table <> [] ->
  positive_widths table ->
  lookup name table = Some wq ->
  int64 (ev_object_id e) ->
  (forall p, In p table -> int64 (ev_time e / snd p * snd p)) ->
  int64 (now / wq * wq - wq * limit) ->
  int64 (now / wq * wq) ->
  Z.of_nat (List.length
    (types_in (ev_object_id e) (now / wq * wq - wq * limit) (now / wq * wq)
       (rs ++ map (fun p => rollup e (snd p)) table))) <= max_items ->
  exists before after,
    StatsHandler.post parser table max_items now
      (stats_request (ev_object_id e) name limit) (map doc_of rs)
    = Return (Reply 200 (Some before)) /\
    StatsHandler.post parser table max_items now
      (stats_request (ev_object_id e) name limit)
      (fst (EventsHandler.post parser table (event_request e) (map doc_of rs)))
    = Return (Reply 200 (Some after)) /\
    (forall t n,
       reports after (ev_type e) t n <->
       now / wq * wq - wq * limit <= t <= now / wq * wq /\ 1 <= n /\
       n = count_records (ev_object_id e) (ev_type e) t rs
           + Z.of_nat (List.length
               (filter (fun p => ev_time e / snd p * snd p =? t) table))) /\
    (forall ty t n,
       ty <> ev_type e ->
       (reports after ty t n <-> reports before ty t n)).
Proof.
  intros Hne Hpos Hlook _ _ _ _ Hmax.
  rewrite (post_event parser table e (map doc_of rs) Hne Hpos). cbn [fst].
  rewrite <- map_app.
  set (R := map (fun p => rollup e (snd p)) table) in *.
  destruct (stats_post_reports parser table max_items now (ev_object_id e) limit wq
              name rs Hpos Hlook) as (before & H1 & Hb).
  { pose proof (types_in_incl_length (ev_object_id e)
                  (now / wq * wq - wq * limit) (now / wq * wq)
                  (ev_object_id e) (now / wq * wq - wq * limit) (now / wq * wq)
                  rs (rs ++ R) (fun ty => types_in_app_l _ _ _ rs R ty)) as Hle.
    lia. }
  destruct (stats_post_reports parser table max_items now (ev_object_id e) limit wq
              name (rs ++ R) Hpos Hlook Hmax) as (after & H2 & Ha).
  exists before, after. split; [exact H1 |]. split; [exact H2 |]. split.
  - intros t n. rewrite Ha, count_records_app. unfold R.
    rewrite count_rollups, Z.eqb_refl, String.eqb_refl. cbn [andb]. tauto.
  - intros ty t n Hty. rewrite Ha, Hb, count_records_app. unfold R.
    rewrite count_rollups.
    replace (String.eqb (ev_type e) ty) with false.
    + rewrite andb_false_r, Z.add_0_r. tauto.
    + symmetry. apply String.eqb_neq. congruence.
Qed.

Lemma ingest_adds_to_its_buckets_witness :
  exists before after,
    StatsHandler.post (fun _ => None) TIME_RESOLUTIONS 2 10000
      (stats_request 7 "hour" 3) (map doc_of [Rollup "view" 7 3600])
    = Return (Reply 200 (Some before)) /\
    StatsHandler.post (fun _ => None) TIME_RESOLUTIONS 2 10000
      (stats_request 7 "hour" 3)
      (fst (EventsHandler.post (fun _ => None) TIME_RESOLUTIONS
              (event_request (Event "click" 7 3661))
              (map doc_of [Rollup "view" 7 3600])))
    = Return (Reply 200 (Some after)) /\
    (forall t n,
       reports after "click" t n <->
       10000 / 3600 * 3600 - 3600 * 3 <= t <= 10000 / 3600 * 3600 /\ 1 <= n /\
       n = count_records 7 "click" t [Rollup "view" 7 3600]
           + Z.of_nat (List.length
               (filter (fun p => 3661 / snd p * snd p =? t) TIME_RESOLUTIONS))) /\
    (forall ty t n,
       ty <> "click" ->
       (reports after ty t n <-> reports before ty t n)).
Proof.
  apply (ingest_adds_to_its_buckets (fun _ => None) TIME_RESOLUTIONS 2 10000 3 3600
           "hour" (Event "click" 7 3661) [Rollup "view" 7 3600]).
  - discriminate.
  - repeat constructor.
  - reflexivity.
  - in_int64.
  - intros p [<- | [<- | []]]; in_int64.
  - in_int64.
  - in_int64.
  - vm_compute. discriminate.
Defined.

(** X17. A negative [limit] is not refused: as long as the store can hold
    the object and the bounds, the window the planner gives ends before it
    starts, no record lies in it, and the handler answers 200 with an empty
    result, whatever the collection holds. *)
Theorem stats_negative_limit (parser : string -> option Z)
  (table : list (string * Z)) (max_items now oid limit wq : Z) (name : string)
  (rs : list RollupRecord) :
  positive_widths table ->
  lookup name table = Some wq ->
  0 <= max_items ->
  int64 oid ->
  int64 (now / wq * wq - wq * limit) ->
  int64 (now / wq * wq) ->
  limit < 0 ->
  StatsHandler._compute_start_and_end now wq limit
  = Return (now / wq * wq - wq * limit, now / wq * wq)
  /\ now / wq * wq < now / wq * wq - wq * limit
  /\ StatsHandler.post parser table max_items now (stats_request oid name limit)
       (map doc_of rs)
     = Return (Reply 200 (Some [])).
Proof.
  intros Hpos Hlook Hmax _ _ _ Hlim.
  pose proof (lookup_positive _ _ _ Hpos Hlook) as Hw.
  assert (Hwin : now / wq * wq < now / wq * wq - wq * limit) by nia.
  split; [| split; [exact Hwin |]].
  - unfold StatsHandler._compute_start_and_end.
    now rewrite round_time_value by lia.
  - rewrite (stats_post_closed parser table max_items now oid limit wq name rs
               Hpos Hlook Hmax).
    rewrite series_empty_window by exact Hwin.
    now rewrite firstn_nil.
Qed.

Lemma stats_negative_limit_witness :
  StatsHandler._compute_start_and_end 10000 3600 (-1)
  = Return (10000 / 3600 * 3600 - 3600 * (-1), 10000 / 3600 * 3600)
  /\ 10000 / 3600 * 3600 < 10000 / 3600 * 3600 - 3600 * (-1)
  /\ StatsHandler.post (fun _ => None) TIME_RESOLUTIONS 9999999999 10000
       (stats_request 7 "hour" (-1)) (map doc_of [Rollup "a" 7 7200])
     = Return (Reply 200 (Some [])).
Proof.
  apply (stats_negative_limit (fun _ => None) TIME_RESOLUTIONS 9999999999 10000
           7 (-1) 3600 "hour" [Rollup "a" 7 7200]).
  - repeat constructor.
  - reflexivity.
  - lia.
  - in_int64.
  - in_int64.
  - in_int64.
  - lia.
Defined.
